(** * Void auto-triage agent: the triage orchestration, embedded and verified

    The development follows the four TypeScript modules of the worker:

    - [llm.ts]    the [TriagePlan] schema and the bounded retry loop of
                  [getTriagePlan];
    - [kb.ts]     the knowledge-base accessors and [validateLabelIds];
    - [linear.ts] the tracker operations ([updateIssue], [createComment], ...);
    - [worker.ts] the two event handlers [handleNewIssue] and [handleComment].

    Asynchronous code is embedded in a state-and-exception monad.  The state
    holds the two module-level client singletons and the chronological log of
    every effect the code has issued; the remote collaborators (key-value
    store, model provider, tracker) form a deterministic [World] whose answer
    to a call may depend on everything that was issued before it. *)

From Stdlib Require Import QArith.
From stdpp Require Import base option list gmap sets strings.

Local Open Scope Z_scope.

(** ** JavaScript strings and truthiness *)

Definition nl : string := String (Ascii.ascii_of_nat 10) EmptyString.

(** [!!s] for a string: only the empty string is falsy. *)
Definition nonempty (s : string) : bool :=
  match s with
  | EmptyString => false
  | String _ _ => true
  end.

(** [!!o] for a value of type [string | undefined]. *)
Definition truthy (o : option string) : bool :=
  match o with
  | Some s => nonempty s
  | None => false
  end.

(** [o || d] for a value of type [string | undefined]. *)
Definition or_else (o : option string) (d : string) : string :=
  match o with
  | Some s => if nonempty s then s else d
  | None => d
  end.

(** [hay.includes(needle)]. *)
Fixpoint includes (needle hay : string) : bool :=
  if String.prefix needle hay then true
  else match hay with
       | EmptyString => false
       | String _ hay' => includes needle hay'
       end.

(** [xs.join(sep)]. *)
Fixpoint join (sep : string) (xs : list string) : string :=
  match xs with
  | [] => EmptyString
  | [x] => x
  | x :: rest => x +:+ sep +:+ join sep rest
  end.

(** ** Parsed JSON documents

    The text handed to [JSON.parse] is represented by its outcome.  Numbers
    are never computed with, only carried, so they are kept as rationals. *)

#[local] Set Warnings "-register-all".

Inductive json : Type :=
| JNull
| JBool (b : bool)
| JNum (q : Q)
| JStr (s : string)
| JArr (items : list json)
| JObj (fields : list (string * json)).

(** Property access [o[k]] on a parsed object ([None] is [undefined]). *)
Fixpoint field (k : string) (fs : list (string * json)) : option json :=
  match fs with
  | [] => None
  | (k', v) :: rest => if String.eqb k k' then Some v else field k rest
  end.

(** ** llm.ts: the TriagePlan schema *)

Inductive Priority : Type := Urgent | High | Medium | Low | NoPriority.

Record Rewrite : Type := {
  rewrite_title : option string;
  rewrite_description : option string;
}.

Record TriagePlan : Type := {
  rewrite : option Rewrite;
  priority : option Priority;
  teamId : option string;
  labelIds : option (list string);
  estimate : option Q;
  assigneeId : option string;
  subtasks : option (list string);
  needsClarification : bool;
  clarificationComment : option string;
}.

Module Zod.

(** [z.string()] *)
Definition string_ (j : json) : option string :=
  match j with JStr s => Some s | _ => None end.

(** [z.boolean()] *)
Definition boolean (j : json) : option bool :=
  match j with JBool b => Some b | _ => None end.

(** [z.number()] *)
Definition number (j : json) : option Q :=
  match j with JNum q => Some q | _ => None end.

(** [z.array(item)] *)
Definition array {A} (item : json → option A) (j : json) : option (list A) :=
  match j with JArr js => mapM item js | _ => None end.

(** [schema.optional()] applied to a property that may be missing. *)
Definition optional {A} (schema : json → option A) (o : option json)
  : option (option A) :=
  match o with
  | None => Some None
  | Some j => Some <$> schema j
  end.

(** A required property. *)
Definition required {A} (schema : json → option A) (o : option json)
  : option A :=
  o ≫= schema.

(** [z.enum(["Urgent", "High", "Medium", "Low", "No priority"])] *)
Definition priority_enum (j : json) : option Priority :=
  match j with
  | JStr s =>
      if String.eqb s "Urgent" then Some Urgent
      else if String.eqb s "High" then Some High
      else if String.eqb s "Medium" then Some Medium
      else if String.eqb s "Low" then Some Low
      else if String.eqb s "No priority" then Some NoPriority
      else None
  | _ => None
  end.

(** The inner [z.object({ title, description })] of [rewrite]. *)
Definition rewrite_object (j : json) : option Rewrite :=
  match j with
  | JObj fs =>
      t ← optional string_ (field "title" fs);
      d ← optional string_ (field "description" fs);
      Some {| rewrite_title := t; rewrite_description := d |}
  | _ => None
  end.

End Zod.

(** [TriagePlanSchema.parse]: [None] stands for the thrown [ZodError].
    Unknown keys are stripped, as [z.object] does by default. *)
Definition TriagePlanSchema_parse (j : json) : option TriagePlan :=
  match j with
  | JObj fs =>
      rw ← Zod.optional Zod.rewrite_object (field "rewrite" fs);
      pr ← Zod.optional Zod.priority_enum (field "priority" fs);
      tm ← Zod.optional Zod.string_ (field "teamId" fs);
      ls ← Zod.optional (Zod.array Zod.string_) (field "labelIds" fs);
      es ← Zod.optional Zod.number (field "estimate" fs);
      asg ← Zod.optional Zod.string_ (field "assigneeId" fs);
      sub ← Zod.optional (Zod.array Zod.string_) (field "subtasks" fs);
      nc ← Zod.required Zod.boolean (field "needsClarification" fs);
      cc ← Zod.optional Zod.string_ (field "clarificationComment" fs);
      Some {| rewrite := rw; priority := pr; teamId := tm; labelIds := ls;
              estimate := es; assigneeId := asg; subtasks := sub;
              needsClarification := nc; clarificationComment := cc |}
  | _ => None
  end.

(** ** Environment bindings and webhook payloads (worker.ts) *)

(** The bindings of the worker.  Secrets that were never configured read as
    [undefined]; the key-value namespace [TEAM_RULES_KV] is a remote store
    and lives in the [World] below. *)
Record Env : Type := {
  LINEAR_API_KEY : option string;
  OPENAI_API_KEY : option string;
  OPENAI_MODEL : option string;
  PROMPT : option string;
  AWAITING_INFO_LABEL_ID : option string;
  LINEAR_SIGNING_SECRET : string;
}.

Record Creator : Type := { creator_id : string }.

Record IssueData : Type := {
  issue_id : string;
  issue_title : string;
  issue_description : option string;
  issue_team : string * string;
  issue_creator : option Creator;
}.

Record CommentData : Type := {
  comment_id : string;
  comment_body : string;
  comment_userId : string;
  comment_issue : string;           (* data.issue.id *)
}.

Inductive Action : Type := ActionCreate | ActionUpdate | ActionRemove.

(** [payload.data], whose shape [payload.type] names: ['Issue'] for an
    [IssueData], ['Comment'] for a [CommentData]. *)
Inductive WebhookData : Type :=
| IssueEvent (data : IssueData)
| CommentEvent (data : CommentData).

Record LinearWebhookPayload : Type := {
  payload_action : Action;
  payload_data : WebhookData;
  payload_organizationId : string;
  payload_createdAt : string;
}.

(** The inbound request, as far as [fetch] looks at it.  The HMAC-SHA256
    computation is not modelled: [hmac_verifies] is what
    [crypto.subtle.verify] answers for the header, the secret and the body
    ([false] also when a step of the verification throws); [json_body] is
    what [request.json()] gives, [None] when the body is not JSON. *)
Record Request : Type := {
  linear_signature : option string;
  hmac_verifies : bool;
  json_body : option LinearWebhookPayload;
}.

Record Response : Type := {
  response_body : string;
  response_status : Z;
}.

(** ** kb.ts: knowledge bases *)

Record TeamRule : Type := {
  team_name : string;
  team_keywords : list string;
  team_domains : list string;
}.

Definition TeamKnowledgeBase : Type := gmap string TeamRule.

(** What [JSON.parse] made of the text stored under [labels.json].  The
    interface [LabelKnowledgeBase] is only a cast of that value: nothing
    checks it, so the document is kept as the parser returns it. *)
Definition LabelDocument : Type := json.

(** [x?.k] for [k] one of [data], [issueLabels], [nodes] and [id]: only an
    object has a property of such a name, every other value answers
    [undefined] ([None]), and so does the chain from [null] or [undefined]. *)
Definition get (k : string) (x : option json) : option json :=
  match x with
  | Some (JObj fs) => field k fs
  | _ => None
  end.

(** [!!x] for a parsed value or [undefined]. *)
Definition truthy_json (x : option json) : bool :=
  match x with
  | None | Some JNull => false
  | Some (JBool b) => b
  | Some (JNum q) => negb (Qeq_bool q 0)
  | Some (JStr s) => nonempty s
  | Some (JArr _) | Some (JObj _) => true
  end.

(** [l.id] in the callback of [nodes.map]: reading a property of [null]
    throws ([None]); otherwise the property, or [undefined]. *)
Definition node_id (l : json) : option (option json) :=
  match l with
  | JNull => None
  | _ => Some (get "id" (Some l))
  end.

(** [new Set(values).has(id)] for a string [id]: a member equals it only if
    it is that very string. *)
Definition has (values : list (option json)) (id : string) : bool :=
  existsb (λ v, match v with
                | Some (JStr s) => String.eqb s id
                | _ => false
                end) values.

(** An entry of the key-value store, seen through [get] and [JSON.parse]. *)
Inductive KvEntry (A : Type) : Type :=
| KvAbsent                 (* [get] gave null, or an empty text *)
| KvGarbage                (* the text is not JSON *)
| KvDoc (doc : A).
Arguments KvAbsent {A}.
Arguments KvGarbage {A}.
Arguments KvDoc {A} doc.

Definition KB_KEY : string := "team_rules.json".
Definition LABELS_KEY : string := "labels.json".

(** ** linear.ts: payloads and replies *)

Record IssueUpdatePayload : Type := {
  upd_title : option string;
  upd_description : option string;
  upd_teamId : option string;
  upd_labelIds : option (list string);
  upd_estimate : option Q;
  upd_priority : option Z;
  upd_assigneeId : option string;
}.

(** The object literal [{ labelIds }]: every other property is [undefined]. *)
Definition labels_only (labelIds : list string) : IssueUpdatePayload :=
  {| upd_title := None; upd_description := None; upd_teamId := None;
     upd_labelIds := Some labelIds; upd_estimate := None;
     upd_priority := None; upd_assigneeId := None |}.

Record SubtaskCreatePayload : Type := {
  sub_title : string;
  sub_description : option string;
}.

(** [issue { id, title }] in the selection of the [issueCreate] mutation. *)
Record CreatedIssue : Type := {
  created_id : string;
  created_title : string;
}.

(** [data.issueCreate]: [success], and [issue], which may be [null]. *)
Record IssueCreateReply : Type := {
  create_success : bool;
  create_issue : option CreatedIssue;
}.

(** The issue as [getIssue] returns it: the queried fields plus [labelIds]. *)
Record Issue : Type := {
  fetched_title : string;
  fetched_description : option string;
  fetched_labelIds : list string;
}.

Record CommentUser : Type := { user_name : option string }.

Record CommentNode : Type := {
  node_user : option CommentUser;
  node_body : string;
}.

(** Outcome of [client.client.rawRequest]. *)
Inductive Gql (A : Type) : Type :=
| GqlRejected              (* the request promise rejected *)
| GqlData (a : A).
Arguments GqlRejected {A}.
Arguments GqlData {A} a.

(** Outcome of [client.chat.completions.create] followed by [JSON.parse] of
    [choices[0]?.message?.content]. *)
Inductive ChatReply : Type :=
| ChatRejected             (* the API call rejected *)
| ChatEmpty                (* no content, or an empty one *)
| ChatNotJson              (* JSON.parse throws *)
| ChatJson (j : json).

(** ** Effects, the world and the monad *)

(** Everything the code sends out, plus the local timer of the retry loop. *)
Inductive Call : Type :=
| KvGet (key : string)
| ChatCompletion (model system user : string)
| Delay (ms : Z)
| IssueQuery (id : string)
| CommentsQuery (id : string)
| IssueUpdate (id : string) (input : IssueUpdatePayload)
| IssueCreate (parentId : string) (subtask : SubtaskCreatePayload)
| CommentCreate (issueId body : string)
| IssueSubscriptionCreate (issueId userId : string)
| ReactionCreate (issueId emoji : string).

(** Remote calls are all of them but the timer. *)
Definition is_remote (c : Call) : bool :=
  match c with Delay _ => false | _ => true end.

(** Tracker mutations. *)
Definition is_mutation (c : Call) : bool :=
  match c with
  | IssueUpdate _ _ | IssueCreate _ _ | CommentCreate _ _
  | IssueSubscriptionCreate _ _ | ReactionCreate _ _ => true
  | _ => false
  end.

(** The collaborators.  Each answer is a function of the log up to and
    including the call being answered. *)
Record World : Type := {
  kv_team_rules : list Call → KvEntry TeamKnowledgeBase;
  kv_labels : list Call → KvEntry LabelDocument;
  chat : list Call → ChatReply;
  issue_query : list Call → Gql (option Issue);       (* data?.issue *)
  comments_query : list Call → Gql (option (list CommentNode));
  mutation : list Call → Gql bool;                    (* data?.<op>?.success *)
  issue_create : list Call → Gql (option IssueCreateReply);
                                                      (* data?.issueCreate *)
}.

Inductive Error : Type :=
| KnowledgeBaseNotFound (key : string)
| SyntaxError
| TypeError
| OpenAIKeyNotSet
| OpenAIRequestFailed
| LlmResponseEmpty
| ZodError
| PlanGenerationFailed
| ExitedRetryLoop
| LinearKeyNotSet
| GraphQLRequestFailed
| FailedToFetchIssue (id : string)
| FailedToFetchComments (id : string)
| FailedToUpdateIssue (id : string)
| FailedToCreateComment (id : string)
| FailedToSubscribe (userId issueId : string)
| FailedToAddReaction (id : string).

Inductive Result (A : Type) : Type :=
| Ok (a : A)
| Throw (e : Error).
Arguments Ok {A} a.
Arguments Throw {A} e.

(** Module-level singletons of [llm.ts] and [linear.ts], and the log. *)
Record Sys : Type := {
  openai : bool;
  linearClient : bool;
  calls : list Call;
}.

Definition M (A : Type) : Type := Sys → Result A * Sys.

Definition ret {A} (a : A) : M A := λ s, (Ok a, s).

Definition throw {A} (e : Error) : M A := λ s, (Throw e, s).

Definition bind {A B} (m : M A) (k : A → M B) : M B :=
  λ s, match m s with
       | (Ok a, s') => k a s'
       | (Throw e, s') => (Throw e, s')
       end.

(** [try { m } catch (error) { h }] *)
Definition try_catch {A} (m : M A) (h : Error → M A) : M A :=
  λ s, match m s with
       | (Ok a, s') => (Ok a, s')
       | (Throw e, s') => h e s'
       end.

Notation "x <- m ;; k" := (bind m (λ x, k))
  (at level 100, m at level 99, right associativity).
Notation "m ;;; k" := (bind m (λ _, k))
  (at level 100, k at level 100, right associativity).

(** State updates: a call appended to the log, a singleton constructed. *)
Definition logged (c : Call) (s : Sys) : Sys :=
  {| openai := openai s; linearClient := linearClient s;
     calls := calls s ++ [c] |}.

Definition with_openai (s : Sys) : Sys :=
  {| openai := true; linearClient := linearClient s; calls := calls s |}.

Definition with_linear (s : Sys) : Sys :=
  {| openai := openai s; linearClient := true; calls := calls s |}.

(** Issue [c] and hand back the log the world answers from. *)
Definition emit (c : Call) : M (list Call) :=
  λ s, (Ok (calls s ++ [c]), logged c s).

(** The calls a computation adds to the log [before]. *)
Definition issued (before : Sys) (after : Sys) : list Call :=
  drop (length (calls before)) (calls after).

(** [Promise.allSettled] over [xs.map(f)]: every request is issued, in list
    order, and a rejection is recorded instead of propagated. *)
Definition settle {A} (m : M A) : M (option A) :=
  λ s, match m s with
       | (Ok a, s') => (Ok (Some a), s')
       | (Throw _, s') => (Ok None, s')
       end.

Fixpoint all_settled {A B} (f : A → M B) (xs : list A) : M (list (option B)) :=
  match xs with
  | [] => ret []
  | x :: rest =>
      r <- settle (f x);;
      rs <- all_settled f rest;;
      ret (r :: rs)
  end.

Section Agent.

(** The default instruction text of worker.ts and [JSON.stringify(kb, null, 2)]
    only feed the prompt sent to the model; they are kept abstract. *)
Variable SYSTEM_PROMPT : string.
Variable stringify_team : TeamKnowledgeBase → string.
Variable stringify_labels : LabelDocument → string.

Variable w : World.

(** *** kb.ts *)

Definition kv_parse {A} (key : string) (e : KvEntry A) : M A :=
  match e with
  | KvAbsent => throw (KnowledgeBaseNotFound key)
  | KvGarbage => throw SyntaxError
  | KvDoc doc => ret doc
  end.

Definition getTeamKnowledgeBase (env : Env) : M TeamKnowledgeBase :=
  log <- emit (KvGet KB_KEY);;
  kv_parse KB_KEY (kv_team_rules w log).

Definition getLabelKnowledgeBase (env : Env) : M LabelDocument :=
  log <- emit (KvGet LABELS_KEY);;
  kv_parse LABELS_KEY (kv_labels w log).

(** [labelKb?.data?.issueLabels?.nodes] *)
Definition kb_nodes (labelKb : LabelDocument) : option json :=
  get "nodes" (get "issueLabels" (get "data" (Some labelKb))).

(** [nodes.map((l: any) => l.id)]: only an array has [map]; on any other
    value, and at a [null] element, the call throws a [TypeError]. *)
Definition node_ids (nodes : option json) : M (list (option json)) :=
  match nodes with
  | Some (JArr items) =>
      match mapM node_id items with
      | Some ids => ret ids
      | None => throw TypeError
      end
  | _ => throw TypeError
  end.

Definition validateLabelIds (env : Env) (labelIds : list string)
  : M (list string) :=
  labelKb <- getLabelKnowledgeBase env;;
  if negb (truthy_json (kb_nodes labelKb)) then ret []
  else
    validLabelIds <- node_ids (kb_nodes labelKb);;
    ret (filter (λ id, has validLabelIds id) labelIds).

(** *** llm.ts *)

Definition getOpenAIClient (env : Env) : M unit :=
  λ s, if openai s then (Ok (), s)
       else if truthy (OPENAI_API_KEY env)
            then (Ok (), with_openai s)
            else (Throw OpenAIKeyNotSet, s).

Definition MAX_RETRIES : Z := 3.
Definition RETRY_DELAY_MS : Z := 1000.

(** The body of the [try] block: one model call, then [JSON.parse] and
    [TriagePlanSchema.parse] on its content. *)
Definition attempt (model prompt issueContent : string) : M TriagePlan :=
  log <- emit (ChatCompletion model prompt issueContent);;
  match chat w log with
  | ChatRejected => throw OpenAIRequestFailed
  | ChatEmpty => throw LlmResponseEmpty
  | ChatNotJson => throw SyntaxError
  | ChatJson parsedJson =>
      match TriagePlanSchema_parse parsedJson with
      | Some plan => ret plan
      | None => throw ZodError
      end
  end.

(** [for (let i = ..; i < MAX_RETRIES; i++)], by the number of iterations
    that remain; the statement after the loop is reached when none does. *)
Fixpoint retry_loop (remaining : nat) (i : Z) (model prompt issueContent : string)
  : M TriagePlan :=
  match remaining with
  | O => throw ExitedRetryLoop
  | S remaining' =>
      try_catch (attempt model prompt issueContent)
        (λ _, if i =? MAX_RETRIES - 1 then throw PlanGenerationFailed
              else emit (Delay (RETRY_DELAY_MS * (i + 1)));;;
                   retry_loop remaining' (i + 1) model prompt issueContent)
  end.

(** [getTriagePlan({ ...env, PROMPT: prompt }, issueContent)] *)
Definition getTriagePlan (env : Env) (prompt issueContent : string)
  : M TriagePlan :=
  getOpenAIClient env;;;
  let model := or_else (OPENAI_MODEL env) "gpt-4o-mini" in
  retry_loop (Z.to_nat MAX_RETRIES) 0 model prompt issueContent.

(** *** linear.ts *)

Definition getLinearClient (env : Env) : M unit :=
  λ s, if linearClient s then (Ok (), s)
       else if truthy (LINEAR_API_KEY env)
            then (Ok (), with_linear s)
            else (Throw LinearKeyNotSet, s).

(** [makeGraphQLRequest(env, query, variables)]: the query and its variables
    are the [Call], [reply] is how the world answers that kind of query. *)
Definition makeGraphQLRequest {A} (env : Env) (c : Call)
    (reply : list Call → Gql A) : M A :=
  getLinearClient env;;;
  log <- emit c;;
  match reply log with
  | GqlRejected => throw GraphQLRequestFailed
  | GqlData a => ret a
  end.

Definition getIssue (env : Env) (issueId : string) : M Issue :=
  issue <- makeGraphQLRequest env (IssueQuery issueId) (issue_query w);;
  match issue with
  | None => throw (FailedToFetchIssue issueId)
  | Some issue => ret issue
  end.

Definition getComments (env : Env) (issueId : string) : M (list CommentNode) :=
  ns <- makeGraphQLRequest env (CommentsQuery issueId) (comments_query w);;
  match ns with
  | None => throw (FailedToFetchComments issueId)
  | Some ns => ret ns
  end.

(** Every caller passes a numeric estimate, so the [parseInt] conversion of
    a textual one never applies. *)
Definition updateIssue (env : Env) (issueId : string)
    (payload : IssueUpdatePayload) : M unit :=
  getLinearClient env;;;
  success <- makeGraphQLRequest env (IssueUpdate issueId payload) (mutation w);;
  if success : bool then ret () else throw (FailedToUpdateIssue issueId).

(** What [results.map(...)] makes of one settled request: [null] for a
    rejection or a reply without a truthy [success], else [issue]; [None]
    stands for every value that [filter(Boolean)] then drops. *)
Definition created (result : option (option IssueCreateReply))
  : option CreatedIssue :=
  match result with
  | Some (Some reply) =>
      if create_success reply then create_issue reply else None
  | _ => None
  end.

Definition createMultipleSubtasks (env : Env) (parentId : string)
    (subtasks : list SubtaskCreatePayload) : M (list CreatedIssue) :=
  results <- all_settled
               (λ subtask,
                  makeGraphQLRequest env (IssueCreate parentId subtask)
                    (issue_create w))
               subtasks;;
  ret (omap created results).

Definition createComment (env : Env) (issueId body : string) : M unit :=
  success <- makeGraphQLRequest env (CommentCreate issueId body) (mutation w);;
  if success : bool then ret () else throw (FailedToCreateComment issueId).

Definition subscribeToIssue (env : Env) (issueId userId : string) : M unit :=
  success <- makeGraphQLRequest env (IssueSubscriptionCreate issueId userId)
               (mutation w);;
  if success : bool then ret () else throw (FailedToSubscribe userId issueId).

Definition addReaction (env : Env) (issueId emoji : string) : M unit :=
  success <- makeGraphQLRequest env (ReactionCreate issueId emoji) (mutation w);;
  if success : bool then ret () else throw (FailedToAddReaction issueId).

(** *** worker.ts *)

Definition BOT_MARKER : string := "<!-- bot -->".
Definition DONE_EMOJI : string := "✅".

Definition priorityMap (p : Priority) : Z :=
  match p with
  | NoPriority => 0
  | Urgent => 1
  | High => 2
  | Medium => 3
  | Low => 4
  end.

(** [xs.includes(o)] for [o : string | undefined] on an array of strings. *)
Definition array_includes (xs : list string) (o : option string) : bool :=
  match o with
  | Some x => bool_decide (x ∈ xs)
  | None => false
  end.

Definition promptWithKb (env : Env) (teamKb : TeamKnowledgeBase)
    (labelKb : LabelDocument) : string :=
  or_else (PROMPT env) SYSTEM_PROMPT +:+ nl +:+ nl
  +:+ "Team Knowledge Base:" +:+ nl +:+ stringify_team teamKb +:+ nl +:+ nl
  +:+ "Label Knowledge Base:" +:+ nl +:+ stringify_labels labelKb.

(** [plan.needsClarification && plan.clarificationComment], as a condition. *)
Definition asksClarification (plan : TriagePlan) : bool :=
  needsClarification plan && truthy (clarificationComment plan).

(** [subtasks.map(title => ({ title }))] under [subtasks && subtasks.length > 0] *)
Definition createRequestedSubtasks (env : Env) (issueId : string)
    (subtasks : option (list string)) : M unit :=
  match subtasks with
  | Some (t :: ts) =>
      createMultipleSubtasks env issueId
        ((λ title, {| sub_title := title; sub_description := None |})
           <$> (t :: ts));;;
      ret ()
  | _ => ret ()
  end.

(** [handleNewIssue], lines 156-171: from the payload to the plan. *)
Definition requestNewIssuePlan (data : IssueData) (env : Env) : M TriagePlan :=
  teamKb <- getTeamKnowledgeBase env;;
  labelKb <- getLabelKnowledgeBase env;;
  let issueContent :=
    "Title: " +:+ issue_title data +:+ nl +:+ nl +:+ "Description: "
    +:+ or_else (issue_description data) EmptyString in
  getTriagePlan env (promptWithKb env teamKb labelKb) issueContent.

(** The object literal passed to [updateIssue] on first triage (lines
    183-189): [title] and [description] are not among its properties. *)
Definition newIssueUpdate (plan : TriagePlan) (validLabelIds : list string)
  : IssueUpdatePayload :=
  {| upd_title := None;
     upd_description := None;
     upd_teamId := teamId plan;
     upd_labelIds := Some validLabelIds;
     upd_estimate := estimate plan;
     upd_priority := priorityMap <$> priority plan;
     upd_assigneeId := assigneeId plan |}.

(** [handleNewIssue], lines 173-197: what is done with the plan. *)
Definition executeNewIssuePlan (data : IssueData) (env : Env)
    (plan : TriagePlan) : M unit :=
  let issueId := issue_id data in
  if asksClarification plan then
    createComment env issueId (default EmptyString (clarificationComment plan));;;
    match AWAITING_INFO_LABEL_ID env with
    | Some marker =>
        if nonempty marker
        then updateIssue env issueId (labels_only [marker])
        else ret ()
    | None => ret ()
    end
  else
    validLabelIds <- validateLabelIds env (default [] (labelIds plan));;
    updateIssue env issueId (newIssueUpdate plan validLabelIds);;;
    createRequestedSubtasks env issueId (subtasks plan);;;
    match issue_creator data with
    | Some creator => subscribeToIssue env issueId (creator_id creator)
    | None => ret ()
    end;;;
    addReaction env issueId DONE_EMOJI.

Definition handleNewIssue (data : IssueData) (env : Env) : M unit :=
  plan <- requestNewIssuePlan data env;;
  executeNewIssuePlan data env plan.

Definition conversationHistory (comments : list CommentNode) : string :=
  join (nl +:+ nl)
    ((λ c, or_else (node_user c ≫= user_name) "User" +:+ ": " +:+ node_body c)
       <$> comments).

(** [issue.labelIds.filter(id => id !== marker).concat(validLabelIds)] *)
Definition finalLabelIds (env : Env) (issue : Issue)
    (validLabelIds : list string) : list string :=
  filter (λ id, Some id ≠ AWAITING_INFO_LABEL_ID env) (fetched_labelIds issue)
  ++ validLabelIds.

(** [handleComment], lines 222-236: from the awaited reply to the new plan. *)
Definition requestRetriagePlan (issueId : string) (issue : Issue) (env : Env)
  : M TriagePlan :=
  teamKb <- getTeamKnowledgeBase env;;
  labelKb <- getLabelKnowledgeBase env;;
  comments <- getComments env issueId;;
  let issueContent :=
    "The user has replied to our clarification request. Follow the SOP. Here is the full context."
    +:+ nl +:+ nl +:+ "Original Title: " +:+ fetched_title issue
    +:+ nl +:+ nl +:+ "Original Description: "
    +:+ or_else (fetched_description issue) EmptyString
    +:+ nl +:+ nl +:+ "Conversation History:" +:+ nl
    +:+ conversationHistory comments in
  getTriagePlan env (promptWithKb env teamKb labelKb) issueContent.

(** The object literal passed to [updateIssue] on re-triage (lines 254-262). *)
Definition retriageUpdate (plan : TriagePlan) (finalLabelIds : list string)
  : IssueUpdatePayload :=
  {| upd_title := rewrite plan ≫= rewrite_title;
     upd_description := rewrite plan ≫= rewrite_description;
     upd_teamId := teamId plan;
     upd_labelIds := Some finalLabelIds;
     upd_estimate := estimate plan;
     upd_priority := priorityMap <$> priority plan;
     upd_assigneeId := assigneeId plan |}.

(** [handleComment], lines 239-271: what is done with the new plan. *)
Definition executeRetriagePlan (issueId : string) (issue : Issue) (env : Env)
    (plan : TriagePlan) : M unit :=
  if asksClarification plan then
    createComment env issueId (default EmptyString (clarificationComment plan))
  else
    validLabelIds <- validateLabelIds env (default [] (labelIds plan));;
    updateIssue env issueId
      (retriageUpdate plan (finalLabelIds env issue validLabelIds));;;
    createRequestedSubtasks env issueId (subtasks plan);;;
    addReaction env issueId DONE_EMOJI.

Definition handleComment (data : CommentData) (env : Env) : M unit :=
  if includes BOT_MARKER (comment_body data) then ret ()
  else
    let issueId := comment_issue data in
    issue <- getIssue env issueId;;
    if negb (truthy (AWAITING_INFO_LABEL_ID env))
       || negb (array_includes (fetched_labelIds issue)
                  (AWAITING_INFO_LABEL_ID env))
    then ret ()
    else
      plan <- requestRetriagePlan issueId issue env;;
      executeRetriagePlan issueId issue env plan.

(** [verifySignature]: no header (or an empty one) is refused before any
    cryptography; otherwise the answer is that of the HMAC check. *)
Definition verifySignature (request : Request) (secret : string) : bool :=
  match linear_signature request with
  | Some signatureHeader =>
      if nonempty signatureHeader then hmac_verifies request else false
  | None => false
  end.

(** [ctx.waitUntil(promise)]: the handler runs in the background; whether it
    resolves or rejects is not seen by [fetch].  Its calls are logged here
    in the order the handler issues them. *)
Definition waitUntil (promise : M unit) : M unit :=
  settle promise;;; ret ().

(** The [fetch] entry point. *)
Definition fetch (request : Request) (env : Env) : M Response :=
  if negb (verifySignature request (LINEAR_SIGNING_SECRET env))
  then ret {| response_body := "Invalid signature"; response_status := 401 |}
  else
    match json_body request with
    | None => throw SyntaxError
    | Some payload =>
        match payload_data payload, payload_action payload with
        | IssueEvent data, ActionCreate => waitUntil (handleNewIssue data env)
        | CommentEvent data, ActionCreate => waitUntil (handleComment data env)
        | _, _ => ret ()
        end;;;
        ret {| response_body := "Webhook acknowledged";
               response_status := 200 |}
    end.

End Agent.

(** ** A small deployment used in the examples *)

Module Demo.

Definition labelKb : LabelDocument :=
  JObj [("data", JObj [("issueLabels", JObj [("nodes", JArr
    [ JObj [("id", JStr "label-id-bug"); ("name", JStr "Bug")] ])])])].

Definition env : Env :=
  {| LINEAR_API_KEY := Some "lin_api_key";
     OPENAI_API_KEY := Some "sk-key";
     OPENAI_MODEL := None;
     PROMPT := None;
     AWAITING_INFO_LABEL_ID := Some "MARKER";
     LINEAR_SIGNING_SECRET := "secret" |}.

(** A fresh isolate: no client constructed, nothing issued. *)
Definition boot : Sys := {| openai := false; linearClient := false; calls := [] |}.

Definition issue (labels : list string) : Issue :=
  {| fetched_title := "Login is broken"; fetched_description := None;
     fetched_labelIds := labels |}.

(** The tracker's answer to an accepted creation: the new issue, under the
    title that was sent. *)
Definition accepted (log : list Call) : Gql (option IssueCreateReply) :=
  match last log with
  | Some (IssueCreate _ subtask) =>
      GqlData (Some {| create_success := true;
                       create_issue := Some {| created_id := "SUB-1";
                                               created_title := sub_title subtask |} |})
  | _ => GqlData None
  end.

(** Both knowledge bases are stored, the model always answers [reply], the
    issue carries [labels], and the tracker accepts every mutation. *)
Definition world (reply : ChatReply) (labels : list string) : World :=
  {| kv_team_rules := λ _, KvDoc ∅;
     kv_labels := λ _, KvDoc labelKb;
     chat := λ _, reply;
     issue_query := λ _, GqlData (Some (issue labels));
     comments_query := λ _, GqlData (Some []);
     mutation := λ _, GqlData true;
     issue_create := accepted |}.

Definition newIssue : IssueData :=
  {| issue_id := "ISS-1"; issue_title := "Fix a UI bug on the login page";
     issue_description := None; issue_team := ("team-id-1", "Frontend");
     issue_creator := Some {| creator_id := "user-1" |} |}.

Definition comment (body : string) : CommentData :=
  {| comment_id := "CMT-1"; comment_body := body; comment_userId := "user-1";
     comment_issue := "ISS-1" |}.

Definition prompt : string := "You are a triage assistant.".
Definition stringify_team (kb : TeamKnowledgeBase) : string := "{}".
Definition stringify_labels (kb : LabelDocument) : string := "{}".

(** Raw model outputs and the plans the schema makes of them. *)

Definition clarify : json :=
  JObj [("needsClarification", JBool true);
        ("clarificationComment", JStr "Can you clarify X?<!-- bot -->")].

Definition clarify_plan : TriagePlan :=
  {| rewrite := None; priority := None; teamId := None; labelIds := None;
     estimate := None; assigneeId := None; subtasks := None;
     needsClarification := true;
     clarificationComment := Some "Can you clarify X?<!-- bot -->" |}.

(** Clarification requested, but no comment to post. *)
Definition bare : json :=
  JObj [("needsClarification", JBool true); ("teamId", JStr "team-id-9")].

Definition bare_plan : TriagePlan :=
  {| rewrite := None; priority := None; teamId := Some "team-id-9";
     labelIds := None; estimate := None; assigneeId := None; subtasks := None;
     needsClarification := true; clarificationComment := None |}.



(** A complete plan with a rewritten title, one known and one unknown label. *)
Definition complete : json :=
  JObj [("needsClarification", JBool false);
        ("rewrite", JObj [("title", JStr "Login button ignores clicks")]);
        ("teamId", JStr "team-id-1");
        ("labelIds", JArr [JStr "label-id-bug"; JStr "label-id-fake"]);
        ("priority", JStr "High");
        ("estimate", JNum (3 # 1))].

Definition complete_plan : TriagePlan :=
  {| rewrite := Some {| rewrite_title := Some "Login button ignores clicks";
                        rewrite_description := None |};
     priority := Some High; teamId := Some "team-id-1";
     labelIds := Some ["label-id-bug"; "label-id-fake"];
     estimate := Some (3 # 1); assigneeId := None; subtasks := None;
     needsClarification := false; clarificationComment := None |}.

(** The new-issue handler on [newIssue], and the state it is in once the
    model has answered [j]. *)
Definition onNewIssue (j : json) : M () :=
  handleNewIssue prompt stringify_team stringify_labels
    (world (ChatJson j) []) newIssue env.

Definition planned (j : json) : Sys :=
  (requestNewIssuePlan prompt stringify_team stringify_labels
     (world (ChatJson j) []) newIssue env boot).2.

(** The comment handler on a reply to an issue that carries [labels]. *)
Definition onComment (j : json) (labels : list string) (body : string)
  : M () :=
  handleComment prompt stringify_team stringify_labels
    (world (ChatJson j) labels) (comment body) env.

Definition replanned (j : json) (labels : list string) : Sys :=
  (requestRetriagePlan prompt stringify_team stringify_labels
     (world (ChatJson j) labels) "ISS-1" (issue labels) env
     (logged (IssueQuery "ISS-1") (with_linear boot))).2.

(** A store that holds neither knowledge base. *)
Definition empty_store : World :=
  {| kv_team_rules := λ _, KvAbsent;
     kv_labels := λ _, KvAbsent;
     chat := λ _, ChatJson complete;
     issue_query := λ _, GqlData (Some (issue []));
     comments_query := λ _, GqlData (Some []);
     mutation := λ _, GqlData true;
     issue_create := accepted |}.

(** A tracker that rejects every query and answers every mutation without
    success; the store and the model are as in [world]. *)
Definition refusing : World :=
  {| kv_team_rules := λ _, KvDoc ∅;
     kv_labels := λ _, KvDoc labelKb;
     chat := λ _, ChatJson complete;
     issue_query := λ _, GqlRejected;
     comments_query := λ _, GqlRejected;
     mutation := λ _, GqlData false;
     issue_create := λ _, GqlData (Some {| create_success := false;
                                           create_issue := None |}) |}.

(** Bindings without any API key. *)
Definition no_keys : Env :=
  {| LINEAR_API_KEY := None;
     OPENAI_API_KEY := None;
     OPENAI_MODEL := None;
     PROMPT := None;
     AWAITING_INFO_LABEL_ID := Some "MARKER";
     LINEAR_SIGNING_SECRET := "secret" |}.

Definition two_subtasks : list SubtaskCreatePayload :=
  [ {| sub_title := "Reproduce"; sub_description := None |};
    {| sub_title := "Fix"; sub_description := None |} ].

Definition issue_updated : LinearWebhookPayload :=
  {| payload_action := ActionUpdate;
     payload_data := IssueEvent newIssue;
     payload_organizationId := "org-1";
     payload_createdAt := "2025-01-01T00:00:00.000Z" |}.

Definition unsigned : Request :=
  {| linear_signature := None; hmac_verifies := false;
     json_body := Some issue_updated |}.

Definition signed : Request :=
  {| linear_signature := Some "5d41402abc4b2a76b9719d911017c592";
     hmac_verifies := true;
     json_body := Some issue_updated |}.

(** A model whose first reply is not JSON and whose later replies are the
    clarification request; the rest is as in [world]. *)
Definition flaky : World :=
  {| kv_team_rules := λ _, KvDoc ∅;
     kv_labels := λ _, KvDoc labelKb;
     chat := λ log, match log with [_] => ChatNotJson | _ => ChatJson clarify end;
     issue_query := λ _, GqlData (Some (issue []));
     comments_query := λ _, GqlData (Some []);
     mutation := λ _, GqlData true;
     issue_create := accepted |}.

Definition thread : list CommentNode :=
  [ {| node_user := Some {| user_name := Some "Triage Bot" |};
       node_body := "Can you clarify X?<!-- bot -->" |};
    {| node_user := None; node_body := "It is the login page" |} ].

(** The issue carries the marker and [thread] is its conversation; the rest
    is as in [world]. *)
Definition conversing : World :=
  {| kv_team_rules := λ _, KvDoc ∅;
     kv_labels := λ _, KvDoc labelKb;
     chat := λ _, ChatJson complete;
     issue_query := λ _, GqlData (Some (issue ["MARKER"]));
     comments_query := λ _, GqlData (Some thread);
     mutation := λ _, GqlData true;
     issue_create := accepted |}.

(** A label document whose node list is keyed by identifier instead of
    being an array. *)
Definition keyed_labels : LabelDocument :=
  JObj [("data", JObj [("issueLabels", JObj [("nodes",
    JObj [("label-id-bug", JStr "Bug")])])])].

(** [world], with [keyed_labels] stored as the label document. *)
Definition keyed_store : World :=
  {| kv_team_rules := λ _, KvDoc ∅;
     kv_labels := λ _, KvDoc keyed_labels;
     chat := λ _, ChatJson complete;
     issue_query := λ _, GqlData (Some (issue []));
     comments_query := λ _, GqlData (Some []);
     mutation := λ _, GqlData true;
     issue_create := accepted |}.

(** A tracker that reports every creation a success without returning the
    issue; the rest is as in [world]. *)
Definition silent_creation : World :=
  {| kv_team_rules := λ _, KvDoc ∅;
     kv_labels := λ _, KvDoc labelKb;
     chat := λ _, ChatJson complete;
     issue_query := λ _, GqlData (Some (issue []));
     comments_query := λ _, GqlData (Some []);
     mutation := λ _, GqlData true;
     issue_create := λ _, GqlData (Some {| create_success := true;
                                           create_issue := None |}) |}.

End Demo.

(** * Properties *)

(** ** Vocabulary of the statements *)

(** [needle] occurs in [hay]. *)
Definition contains (needle hay : string) : Prop :=
  ∃ pre post, hay = pre +:+ needle +:+ post.

(** The tracker client exists already or can be constructed. *)
Definition linear_available (env : Env) (s : Sys) : Prop :=
  linearClient s = true ∨ truthy (LINEAR_API_KEY env) = true.

(** The model client exists already or can be constructed. *)
Definition openai_available (env : Env) (s : Sys) : Prop :=
  openai s = true ∨ truthy (OPENAI_API_KEY env) = true.

(** How a mutation's reply turns into the operation's outcome. *)
Definition mutation_result (failed : Error) (r : Gql bool) : Result () :=
  match r with
  | GqlRejected => Throw GraphQLRequestFailed
  | GqlData true => Ok ()
  | GqlData false => Throw failed
  end.

(** The plan a reply carries, if it carries a valid one. *)
Definition valid_plan (r : ChatReply) : option TriagePlan :=
  match r with
  | ChatJson j => TriagePlanSchema_parse j
  | _ => None
  end.

(** The subtask payloads the handlers build from the plan's titles. *)
Definition requestedSubtasks (subtasks : option (list string))
  : list SubtaskCreatePayload :=
  (λ title, {| sub_title := title; sub_description := None |})
    <$> default [] subtasks.

(** The label document holds [nodes] at the path [data.issueLabels.nodes]. *)
Definition at_nodes (labelKb : LabelDocument) (nodes : json) : Prop :=
  ∃ top d il,
    labelKb = JObj top
    ∧ field "data" top = Some (JObj d)
    ∧ field "issueLabels" d = Some (JObj il)
    ∧ field "nodes" il = Some nodes.

(** The values JavaScript takes for false. *)
Definition falsy (j : json) : Prop :=
  match j with
  | JNull | JBool false | JStr EmptyString => True
  | JNum q => (q == 0)%Q
  | _ => False
  end.



(** A label document [validateLabelIds] can work with: its node list, if it
    has one, is an array without [null] entries. *)
Definition usable_labels (labelKb : LabelDocument) : Prop :=
  ∀ nodes, at_nodes labelKb nodes →
    falsy nodes ∨ ∃ items, nodes = JArr items ∧ JNull ∉ items.

(** What [createMultipleSubtasks] gets back for [subtasks] sent after [log]:
    the issue of every creation the tracker reports successful and returns
    an issue for. *)
Fixpoint created_issues (w : World) (parentId : string)
    (subtasks : list SubtaskCreatePayload) (log : list Call)
  : list CreatedIssue :=
  match subtasks with
  | [] => []
  | subtask :: rest =>
      let log' := log ++ [IssueCreate parentId subtask] in
      match issue_create w log' with
      | GqlData (Some {| create_success := true; create_issue := Some issue |}) =>
          issue :: created_issues w parentId rest log'
      | _ => created_issues w parentId rest log'
      end
  end.

(** The transcript line of one comment. *)
Definition transcript_line (c : CommentNode) : string :=
  or_else (node_user c ≫= user_name) "User" +:+ ": " +:+ node_body c.

(** The text the comment handler gives the model about [issue] and its
    conversation [comments]. *)
Definition retriage_content (issue : Issue) (comments : list CommentNode)
  : string :=
  "The user has replied to our clarification request. Follow the SOP. Here is the full context."
  +:+ nl +:+ nl +:+ "Original Title: " +:+ fetched_title issue
  +:+ nl +:+ nl +:+ "Original Description: "
  +:+ or_else (fetched_description issue) EmptyString
  +:+ nl +:+ nl +:+ "Conversation History:" +:+ nl
  +:+ join (nl +:+ nl) (transcript_line <$> comments).

(** The issue carries the configured awaiting-info marker. *)
Definition awaiting_info (env : Env) (issue : Issue) : Prop :=
  ∃ marker, AWAITING_INFO_LABEL_ID env = Some marker
            ∧ nonempty marker = true
            ∧ marker ∈ fetched_labelIds issue.

(** [c] is a creator subscription. *)
Definition is_subscription (c : Call) : bool :=
  match c with IssueSubscriptionCreate _ _ => true | _ => false end.

(** The model call of one attempt. *)
Definition completion (env : Env) (prompt issueContent : string) : Call :=
  ChatCompletion (or_else (OPENAI_MODEL env) "gpt-4o-mini") prompt issueContent.

(** Three attempts, the [k]-th failure followed by a pause of [k] base delays. *)
Definition retry_schedule (attempt_call : Call) : list Call :=
  [attempt_call; Delay (RETRY_DELAY_MS * 1);
   attempt_call; Delay (RETRY_DELAY_MS * 2);
   attempt_call].

(** The tracker mutations among some calls. *)
Definition mutations (cs : list Call) : list Call :=
  filter (λ c, is_mutation c) cs.

(** A computation that only appends to the log, and no mutation. *)
Definition quiet {A} (m : M A) : Prop :=
  ∀ s, ∃ new, calls (m s).2 = calls s ++ new ∧ mutations new = [].

(** A computation that always throws. *)
Definition fails {A} (m : M A) : Prop :=
  ∀ s, ∃ e, (m s).1 = Throw e.

(** Both knowledge-base documents are stored and parse. *)
Definition kb_stored (w : World) : Prop :=
  (∀ log, ∃ doc, kv_team_rules w log = KvDoc doc)
  ∧ (∀ log, ∃ doc, kv_labels w log = KvDoc doc).




(** A computation that only appends to the log, and only calls that
    satisfy [P]. *)
Definition emits {A} (P : Call → Prop) (m : M A) : Prop :=
  ∀ s, ∃ new, calls (m s).2 = calls s ++ new ∧ Forall P new.

(** [c] belongs to plan generation: a model call or a pause of the retry
    loop. *)
Definition is_model_call (c : Call) : bool :=
  match c with
  | ChatCompletion _ _ _ | Delay _ => true
  | _ => false
  end.

(** The calls open to the new-issue handler for the issue [issueId]: reads
    of the knowledge bases, plan generation, and mutations of that one
    issue; no query of the tracker. *)
Definition new_issue_scope (issueId : string) (c : Call) : Prop :=
  match c with
  | KvGet _ | ChatCompletion _ _ _ | Delay _ => True
  | IssueQuery _ | CommentsQuery _ => False
  | IssueUpdate id _ | CommentCreate id _ | ReactionCreate id _
  | IssueSubscriptionCreate id _ | IssueCreate id _ => id = issueId
  end.

(** The calls open to the comment handler for the issue [issueId]: the same
    reads, queries and mutations of that one issue; no subscription. *)
Definition comment_scope (issueId : string) (c : Call) : Prop :=
  match c with
  | KvGet _ | ChatCompletion _ _ _ | Delay _ => True
  | IssueSubscriptionCreate _ _ => False
  | IssueQuery id | CommentsQuery id
  | IssueUpdate id _ | CommentCreate id _ | ReactionCreate id _
  | IssueCreate id _ => id = issueId
  end.

(** The property names [TriagePlanSchema] declares. *)
Definition schema_keys : list string :=
  ["rewrite"; "priority"; "teamId"; "labelIds"; "estimate"; "assigneeId";
   "subtasks"; "needsClarification"; "clarificationComment"].

(** A JSON array of strings. *)
Definition string_array (xs : list string) : json := JArr (JStr <$> xs).

(** The priority names and the tracker's numbers for them. *)
Definition priority_table : list (string * Z) :=
  [("No priority", 0); ("Urgent", 1); ("High", 2); ("Medium", 3); ("Low", 4)].

(** A computation that returns normally from every state. *)
Definition succeeds {A} (m : M A) : Prop :=
  ∀ s, ∃ a s', m s = (Ok a, s').

(** A world in which nothing goes wrong: both knowledge bases are stored,
    the label document being one [validateLabelIds] can work with, every
    reply of the model carries a valid plan, the tracker knows the issue
    and its comments and accepts every mutation. *)
Definition cooperative (w : World) : Prop :=
  kb_stored w
  ∧ (∀ log doc, kv_labels w log = KvDoc doc → usable_labels doc)
  ∧ (∀ log, ∃ plan, valid_plan (chat w log) = Some plan)
  ∧ (∀ log, ∃ issue, issue_query w log = GqlData (Some issue))
  ∧ (∀ log, ∃ ns, comments_query w log = GqlData (Some ns))
  ∧ (∀ log, mutation w log = GqlData true).

(** [c], if it is a model call, is the call [expected]. *)
Definition model_call_is (expected : Call) (c : Call) : Prop :=
  match c with
  | ChatCompletion _ _ _ => c = expected
  | _ => True
  end.

(** Membership in a list that is written out. *)
Ltac in_explicit_list H :=
  repeat (apply elem_of_cons in H as [H|H]; [try discriminate|]);
  try (apply elem_of_nil in H; contradiction).

(** ** Strings *)

Lemma prefix_spec (n h : string) :
  String.prefix n h = true ↔ ∃ post, h = n +:+ post.
Proof.
  revert h. induction n as [|a n IH]; intros h.
  - split; [exists h; reflexivity | destruct h; reflexivity].
  - destruct h as [|b h]; simpl.
    + split; [discriminate | intros [post H]; discriminate].
    + destruct (Ascii.ascii_dec a b) as [->|Hne].
      * rewrite IH. split; intros [post H]; exists post.
        -- by rewrite H.
        -- by injection H.
      * split; [discriminate | intros [post H]; injection H; congruence].
Qed.

Lemma includes_spec (needle hay : string) :
  includes needle hay = true ↔ contains needle hay.
Proof.
  induction hay as [|b hay IH].
  - cbn [includes]. destruct (String.prefix needle EmptyString) eqn:E.
    + split; [|done]. intros _. apply prefix_spec in E as [post E].
      exists EmptyString, post. exact E.
    + split; [discriminate|]. intros ([|c pre] & post & H); [|discriminate].
      assert (String.prefix needle EmptyString = true) as E'
        by (apply prefix_spec; eauto).
      congruence.
  - cbn [includes]. destruct (String.prefix needle (String b hay)) eqn:E.
    + split; [|done]. intros _. apply prefix_spec in E as [post E].
      exists EmptyString, post. exact E.
    + rewrite IH. split.
      * intros (pre & post & ->). by exists (String b pre), post.
      * intros ([|c pre] & post & H).
        -- assert (String.prefix needle (String b hay) = true) as E'
             by (apply prefix_spec; eauto).
           congruence.
        -- injection H as -> ->. by exists pre, post.
Qed.

(** ** The monad and the log *)

Lemma with_linear_id s : linearClient s = true → with_linear s = s.
Proof. destruct s; simpl; by intros ->. Qed.

Lemma with_openai_id s : openai s = true → with_openai s = s.
Proof. destruct s; simpl; by intros ->. Qed.

Lemma issued_app before after new :
  calls after = calls before ++ new → issued before after = new.
Proof. intros H. unfold issued. by rewrite H, drop_app_length. Qed.

Lemma getLinearClient_run env s :
  linear_available env s → getLinearClient env s = (Ok (), with_linear s).
Proof.
  unfold getLinearClient. intros [H|H].
  - by rewrite H, with_linear_id.
  - destruct (linearClient s) eqn:E; [by rewrite with_linear_id | by rewrite H].
Qed.

Lemma getOpenAIClient_run env s :
  openai_available env s → getOpenAIClient env s = (Ok (), with_openai s).
Proof.
  unfold getOpenAIClient. intros [H|H].
  - by rewrite H, with_openai_id.
  - destruct (openai s) eqn:E; [by rewrite with_openai_id | by rewrite H].
Qed.

Lemma linear_available_with_linear env s : linear_available env (with_linear s).
Proof. by left. Qed.


(** ** The label document *)

Lemma at_nodes_spec labelKb nodes :
  at_nodes labelKb nodes ↔ kb_nodes labelKb = Some nodes.
Proof.
  unfold at_nodes, kb_nodes. split.
  - intros (top & d & il & -> & H1 & H2 & H3). cbn. rewrite H1. cbn.
    rewrite H2. cbn. exact H3.
  - destruct labelKb as [| | | | |top]; cbn; try discriminate.
    destruct (field "data" top) as [[| | | | |d]|] eqn:H1; cbn;
      try discriminate.
    destruct (field "issueLabels" d) as [[| | | | |il]|] eqn:H2; cbn;
      try discriminate.
    intros H3. eauto 10.
Qed.

Lemma falsy_spec (j : json) :
  falsy j ↔ truthy_json (Some j) = false.
Proof.
  destruct j as [|[]|q|[|??]| |]; cbn; try done.
  rewrite negb_false_iff. apply iff_sym, Qeq_bool_iff.
Qed.



Lemma node_ids_total items :
  JNull ∉ items →
  mapM node_id items = Some ((λ l, get "id" (Some l)) <$> items).
Proof.
  induction items as [|l items IH]; [done|].
  intros H. apply not_elem_of_cons in H as [Hl H]. cbn.
  rewrite (IH H). by destruct l.
Qed.



Section Properties.

Context (SYSTEM_PROMPT : string).
Context (stringify_team : TeamKnowledgeBase → string).
Context (stringify_labels : LabelDocument → string).
Context (w : World).

#[local] Abbreviation requestNewIssuePlan :=
  (requestNewIssuePlan SYSTEM_PROMPT stringify_team stringify_labels w).
#[local] Abbreviation handleNewIssue :=
  (handleNewIssue SYSTEM_PROMPT stringify_team stringify_labels w).
#[local] Abbreviation requestRetriagePlan :=
  (requestRetriagePlan SYSTEM_PROMPT stringify_team stringify_labels w).
#[local] Abbreviation handleComment :=
  (handleComment SYSTEM_PROMPT stringify_team stringify_labels w).

(** ** linear.ts, operation by operation *)

Lemma makeGraphQLRequest_run {A} env c (reply : list Call → Gql A) s :
  linear_available env s →
  makeGraphQLRequest env c reply s =
    (match reply (calls s ++ [c]) with
     | GqlRejected => Throw GraphQLRequestFailed
     | GqlData a => Ok a
     end, logged c (with_linear s)).
Proof.
  intros H. unfold makeGraphQLRequest, bind.
  rewrite (getLinearClient_run _ _ H). cbn.
  by destruct (reply (calls s ++ [c])).
Qed.

Lemma makeGraphQLRequest_unavailable {A} env c (reply : list Call → Gql A) s :
  linearClient s = false → truthy (LINEAR_API_KEY env) = false →
  makeGraphQLRequest env c reply s = (Throw LinearKeyNotSet, s).
Proof.
  intros H1 H2. unfold makeGraphQLRequest, bind, getLinearClient.
  by rewrite H1, H2.
Qed.

Lemma createComment_run env issueId body s :
  linear_available env s →
  createComment w env issueId body s =
    (mutation_result (FailedToCreateComment issueId)
       (mutation w (calls s ++ [CommentCreate issueId body])),
     logged (CommentCreate issueId body) (with_linear s)).
Proof.
  intros H. unfold createComment, bind.
  rewrite (makeGraphQLRequest_run _ _ _ _ H).
  by destruct (mutation w _) as [|[]].
Qed.

Lemma updateIssue_run env issueId payload s :
  linear_available env s →
  updateIssue w env issueId payload s =
    (mutation_result (FailedToUpdateIssue issueId)
       (mutation w (calls s ++ [IssueUpdate issueId payload])),
     logged (IssueUpdate issueId payload) (with_linear s)).
Proof.
  intros H. unfold updateIssue, bind.
  rewrite (getLinearClient_run _ _ H).
  rewrite (makeGraphQLRequest_run _ _ _ _ (linear_available_with_linear env s)).
  cbn. by destruct (mutation w _) as [|[]].
Qed.

Lemma subscribeToIssue_run env issueId userId s :
  linear_available env s →
  subscribeToIssue w env issueId userId s =
    (mutation_result (FailedToSubscribe userId issueId)
       (mutation w (calls s ++ [IssueSubscriptionCreate issueId userId])),
     logged (IssueSubscriptionCreate issueId userId) (with_linear s)).
Proof.
  intros H. unfold subscribeToIssue, bind.
  rewrite (makeGraphQLRequest_run _ _ _ _ H).
  by destruct (mutation w _) as [|[]].
Qed.

Lemma addReaction_run env issueId emoji s :
  linear_available env s →
  addReaction w env issueId emoji s =
    (mutation_result (FailedToAddReaction issueId)
       (mutation w (calls s ++ [ReactionCreate issueId emoji])),
     logged (ReactionCreate issueId emoji) (with_linear s)).
Proof.
  intros H. unfold addReaction, bind.
  rewrite (makeGraphQLRequest_run _ _ _ _ H).
  by destruct (mutation w _) as [|[]].
Qed.

(** Subtask creation never throws and issues one request per subtask, in
    order, whatever the individual outcomes. *)
Lemma all_settled_requests env parentId subtasks s :
  linear_available env s →
  ∃ results s',
    all_settled
      (λ subtask,
         makeGraphQLRequest env (IssueCreate parentId subtask) (issue_create w))
      subtasks s = (Ok results, s')
    ∧ calls s' = calls s ++ (IssueCreate parentId <$> subtasks)
    ∧ linear_available env s'
    ∧ omap created results = created_issues w parentId subtasks (calls s).
Proof.
  revert s. induction subtasks as [|t ts IH]; intros s H.
  - exists [], s. cbn. by rewrite app_nil_r.
  - cbn [all_settled created_issues]. unfold bind at 1, settle.
    rewrite (makeGraphQLRequest_run _ _ _ _ H).
    set (s1 := logged (IssueCreate parentId t) (with_linear s)).
    assert (linear_available env s1) as H1 by by left.
    destruct (IH s1 H1) as (rs & s' & E & Hc & Ha & Hr).
    change (calls s1) with (calls s ++ [IssueCreate parentId t]) in Hr, Hc.
    destruct (issue_create w _) as [|reply].
    + exists (None :: rs), s'. unfold bind. rewrite E. cbn.
      split; [done|]. split; [|done].
      rewrite Hc. by rewrite <- app_assoc.
    + exists (Some reply :: rs), s'. unfold bind. rewrite E. cbn.
      split; [done|]. split; [|split; [done|]].
      * rewrite Hc. by rewrite <- app_assoc.
      * rewrite Hr. by destruct reply as [[[] []]|].
Qed.

Lemma createMultipleSubtasks_run env parentId subtasks s :
  linear_available env s →
  ∃ s',
    createMultipleSubtasks w env parentId subtasks s
    = (Ok (created_issues w parentId subtasks (calls s)), s')
    ∧ calls s' = calls s ++ (IssueCreate parentId <$> subtasks)
    ∧ linear_available env s'.
Proof.
  intros H. destruct (all_settled_requests env parentId subtasks s H)
    as (rs & s' & E & Hc & Ha & Hr).
  unfold createMultipleSubtasks, bind. rewrite E. cbn. rewrite Hr. eauto.
Qed.

Lemma createRequestedSubtasks_run env issueId subtasks s :
  linear_available env s →
  ∃ s',
    createRequestedSubtasks w env issueId subtasks s = (Ok (), s')
    ∧ calls s' = calls s ++ (IssueCreate issueId <$> requestedSubtasks subtasks)
    ∧ linear_available env s'.
Proof.
  intros H. unfold createRequestedSubtasks, requestedSubtasks.
  destruct subtasks as [[|t ts]|]; cbn [default];
    try (exists s; cbn; by rewrite app_nil_r).
  destruct (createMultipleSubtasks_run env issueId
    ((λ title, {| sub_title := title; sub_description := None |}) <$> (t :: ts))
    s H) as (s' & E & Hc & Ha).
  exists s'. unfold bind. rewrite E. cbn. eauto.
Qed.

(** ** kb.ts: label validation *)

(** The outcome of [validateLabelIds] once the label document is read. *)
Lemma validateLabelIds_run env labelIds s labelKb :
  kv_labels w (calls s ++ [KvGet LABELS_KEY]) = KvDoc labelKb →
  validateLabelIds w env labelIds s
  = (if negb (truthy_json (kb_nodes labelKb)) then Ok []
     else match kb_nodes labelKb with
          | Some (JArr items) =>
              match mapM node_id items with
              | Some ids => Ok (filter (λ id, has ids id) labelIds)
              | None => Throw TypeError
              end
          | _ => Throw TypeError
          end,
     logged (KvGet LABELS_KEY) s).
Proof.
  intros Hkv. unfold validateLabelIds, getLabelKnowledgeBase, bind, emit.
  rewrite Hkv. cbn [kv_parse ret].
  destruct (negb (truthy_json (kb_nodes labelKb))); [done|].
  unfold node_ids.
  destruct (kb_nodes labelKb) as [[| | | |items|]|]; try done.
  by destruct (mapM node_id items).
Qed.


(** ** worker.ts: the comment handler's guards *)

(** C4: a comment whose body contains the bot marker is dropped at once,
    whatever the world, the bindings and the state of the isolate: the
    handler returns normally, leaves the state as it found it and issues no
    call of any kind. *)
Theorem handleComment_ignores_bot_comments data env s :
  contains BOT_MARKER (comment_body data) →
  handleComment data env s = (Ok (), s)
  ∧ issued s (handleComment data env s).2 = [].
Proof.
  intros H%includes_spec. unfold handleComment. rewrite H.
  split; [reflexivity|]. unfold issued. cbn. by rewrite drop_all.
Qed.

Lemma awaiting_info_guard env issue :
  negb (truthy (AWAITING_INFO_LABEL_ID env))
  || negb (array_includes (fetched_labelIds issue) (AWAITING_INFO_LABEL_ID env))
  = false ↔ awaiting_info env issue.
Proof.
  unfold awaiting_info, array_includes, truthy.
  destruct (AWAITING_INFO_LABEL_ID env) as [m|]; cbn.
  - rewrite orb_false_iff, !negb_false_iff, bool_decide_eq_true. split.
    + intros [? ?]. eauto.
    + intros (? & [= <-] & ? & ?). done.
  - split; [discriminate|]. by intros (? & [=] & _).
Qed.

(** C3 (as the code has it): a comment that is not the bot's own, on an
    issue that lacks the awaiting-info marker or with no marker configured,
    costs exactly one remote call, the read of the parent issue, and is then
    discarded: no knowledge-base read, no model call, no mutation. *)
Theorem handleComment_relevance_guard data env s issue :
  ¬ contains BOT_MARKER (comment_body data) →
  linear_available env s →
  issue_query w (calls s ++ [IssueQuery (comment_issue data)])
    = GqlData (Some issue) →
  ¬ awaiting_info env issue →
  (handleComment data env s).1 = Ok ()
  ∧ issued s (handleComment data env s).2 = [IssueQuery (comment_issue data)].
Proof.
  intros Hbot Hcl Hq Hno. unfold handleComment.
  destruct (includes BOT_MARKER (comment_body data)) eqn:E.
  { by apply includes_spec in E. }
  unfold bind at 1, getIssue, bind.
  rewrite (makeGraphQLRequest_run _ _ _ _ Hcl), Hq. cbn [ret fst snd].
  destruct (_ || _) eqn:G.
  - split; [reflexivity|]. by apply issued_app.
  - by apply awaiting_info_guard in G.
Qed.

(** ** worker.ts: what is done with a plan on the new-issue path *)

Lemma handleNewIssue_plan data env plan s s1 :
  requestNewIssuePlan data env s = (Ok plan, s1) →
  handleNewIssue data env s = executeNewIssuePlan w data env plan s1.
Proof. intros H. unfold handleNewIssue, bind. by rewrite H. Qed.

Lemma asksClarification_true plan :
  asksClarification plan = true ↔
  needsClarification plan = true
  ∧ ∃ body, clarificationComment plan = Some body ∧ nonempty body = true.
Proof.
  unfold asksClarification, truthy. rewrite andb_true_iff.
  destruct (clarificationComment plan) as [body|]; split.
  - intros [? ?]. eauto.
  - intros [? (? & [= <-] & ?)]. done.
  - intros [_ [=]].
  - intros [_ (? & [=] & _)].
Qed.

(** C1 (as the code has it): a plan with [needsClarification = true] and a
    non-empty [clarificationComment], once the tracker has accepted the
    comment, makes the new-issue handler issue that one comment and, when an
    awaiting-info marker is configured, one issue update that carries the
    marker as its only property; nothing else is issued from the plan. *)
Theorem handleNewIssue_clarification data env plan body s s1 :
  requestNewIssuePlan data env s = (Ok plan, s1) →
  needsClarification plan = true →
  clarificationComment plan = Some body →
  nonempty body = true →
  linear_available env s1 →
  mutation w (calls s1 ++ [CommentCreate (issue_id data) body]) = GqlData true →
  (truthy (AWAITING_INFO_LABEL_ID env) = false →
     issued s1 (handleNewIssue data env s).2
     = [CommentCreate (issue_id data) body])
  ∧ (∀ marker,
       AWAITING_INFO_LABEL_ID env = Some marker → nonempty marker = true →
       issued s1 (handleNewIssue data env s).2
       = [CommentCreate (issue_id data) body;
          IssueUpdate (issue_id data) (labels_only [marker])]).
Proof.
  intros Hplan Hnc Hcc Hne Hcl Hok.
  rewrite (handleNewIssue_plan _ _ _ _ _ Hplan). unfold executeNewIssuePlan.
  assert (asksClarification plan = true) as ->
    by (apply asksClarification_true; eauto).
  rewrite Hcc. change (default EmptyString (Some body)) with body.
  unfold bind. rewrite (createComment_run _ _ _ _ Hcl), Hok.
  cbn [mutation_result].
  set (s2 := logged _ _).
  assert (linear_available env s2) as Hcl2 by by left.
  split.
  - unfold truthy. destruct (AWAITING_INFO_LABEL_ID env) as [m|].
    + intros ->. by apply issued_app.
    + intros _. by apply issued_app.
  - intros marker -> ->. rewrite (updateIssue_run _ _ _ _ Hcl2).
    apply issued_app. cbn. by rewrite <- app_assoc.
Qed.

Lemma issued_refl s : issued s s = [].
Proof. unfold issued. by rewrite drop_all. Qed.

Lemma createComment_unavailable env issueId body s :
  linearClient s = false → truthy (LINEAR_API_KEY env) = false →
  createComment w env issueId body s = (Throw LinearKeyNotSet, s).
Proof.
  intros H1 H2. unfold createComment, bind.
  by rewrite (makeGraphQLRequest_unavailable _ _ _ _ H1 H2).
Qed.

Lemma linear_available_dec env s :
  linear_available env s
  ∨ (linearClient s = false ∧ truthy (LINEAR_API_KEY env) = false).
Proof.
  unfold linear_available.
  destruct (linearClient s), (truthy (LINEAR_API_KEY env)); auto.
Qed.

(** C9: on the clarification path of the new-issue handler, with an
    awaiting-info marker configured, every issue update that is issued
    carries [labelIds = [marker]] and no other property, so the marker is
    sent as the issue's whole label list; and that update is issued as soon
    as the tracker has accepted the clarification comment. *)
Theorem handleNewIssue_marker_is_whole_label_list data env plan s s1 marker :
  requestNewIssuePlan data env s = (Ok plan, s1) →
  asksClarification plan = true →
  AWAITING_INFO_LABEL_ID env = Some marker →
  nonempty marker = true →
  (∀ id input,
     IssueUpdate id input ∈ issued s1 (handleNewIssue data env s).2 →
     id = issue_id data
     ∧ input = labels_only [marker]
     ∧ upd_labelIds input = Some [marker])
  ∧ (linear_available env s1 →
     mutation w
       (calls s1 ++ [CommentCreate (issue_id data)
                       (default EmptyString (clarificationComment plan))])
       = GqlData true →
     IssueUpdate (issue_id data) (labels_only [marker])
       ∈ issued s1 (handleNewIssue data env s).2).
Proof.
  intros Hplan Hask Hm Hne.
  rewrite (handleNewIssue_plan _ _ _ _ _ Hplan). unfold executeNewIssuePlan.
  rewrite Hask, Hm, Hne. unfold bind.
  destruct (linear_available_dec env s1) as [Hcl|[H1 H2]].
  - rewrite (createComment_run _ _ _ _ Hcl).
    set (s2 := logged _ _).
    assert (linear_available env s2) as Hcl2 by by left.
    destruct (mutation w _) as [|[]] eqn:Hreply; cbn [mutation_result].
    + split; [|done]. intros id input.
      erewrite issued_app by reflexivity. intros Hin. by in_explicit_list Hin.
    + rewrite (updateIssue_run _ _ _ _ Hcl2).
      erewrite issued_app by (cbn; by rewrite <- app_assoc).
      split.
      * intros id input Hin. in_explicit_list Hin.
        by injection Hin as -> ->.
      * intros _ _. apply list_elem_of_further, list_elem_of_here.
    + split; [|done]. intros id input.
      erewrite issued_app by reflexivity. intros Hin. by in_explicit_list Hin.
  - rewrite (createComment_unavailable _ _ _ _ H1 H2). cbn [snd].
    rewrite issued_refl. split.
    + intros id input Hin. by in_explicit_list Hin.
    + intros [?|?]; congruence.
Qed.

(** C10: on the completion path of the new-issue handler, once the labels
    are validated and the tracker has accepted the issue update, the
    subscription of the creator is issued when the payload has a creator and
    only then; without a creator the handler goes on to create the requested
    subtasks and to post the completion reaction, with no subscription, and
    returns normally when the tracker accepts the reaction. *)
Theorem handleNewIssue_creator_subscription data env plan s s0 s1 valid :
  requestNewIssuePlan data env s = (Ok plan, s0) →
  asksClarification plan = false →
  validateLabelIds w env (default [] (labelIds plan)) s0 = (Ok valid, s1) →
  linear_available env s1 →
  mutation w
    (calls s1 ++ [IssueUpdate (issue_id data) (newIssueUpdate plan valid)])
    = GqlData true →
  let sent := issued s1 (handleNewIssue data env s).2 in
  (∀ creator, issue_creator data = Some creator →
     IssueSubscriptionCreate (issue_id data) (creator_id creator) ∈ sent)
  ∧ (∀ c, c ∈ sent → is_subscription c = true →
       is_Some (issue_creator data))
  ∧ (issue_creator data = None →
     sent = IssueUpdate (issue_id data) (newIssueUpdate plan valid)
            :: (IssueCreate (issue_id data) <$> requestedSubtasks (subtasks plan))
            ++ [ReactionCreate (issue_id data) DONE_EMOJI])
  ∧ (issue_creator data = None →
     mutation w
       (calls s1
        ++ IssueUpdate (issue_id data) (newIssueUpdate plan valid)
           :: (IssueCreate (issue_id data) <$> requestedSubtasks (subtasks plan))
           ++ [ReactionCreate (issue_id data) DONE_EMOJI])
       = GqlData true →
     (handleNewIssue data env s).1 = Ok ()).
Proof.
  intros Hplan Hask Hvalid Hcl Hok.
  remember (handleNewIssue data env s) as r eqn:Hr. intros sent. subst sent.
  rewrite (handleNewIssue_plan _ _ _ _ _ Hplan) in Hr.
  unfold executeNewIssuePlan in Hr. rewrite Hask in Hr.
  unfold bind at 1 in Hr. rewrite Hvalid in Hr.
  unfold bind at 1 in Hr. rewrite (updateIssue_run _ _ _ _ Hcl), Hok in Hr.
  cbn [mutation_result] in Hr.
  set (s2 := logged _ _) in Hr.
  assert (linear_available env s2) as Hcl2 by by left.
  destruct (createRequestedSubtasks_run env (issue_id data) (subtasks plan)
              s2 Hcl2) as (s3 & E3 & Hc3 & Hcl3).
  unfold bind at 1 in Hr. rewrite E3 in Hr.
  assert (calls s3 = calls s1
            ++ IssueUpdate (issue_id data) (newIssueUpdate plan valid)
               :: (IssueCreate (issue_id data)
                     <$> requestedSubtasks (subtasks plan))) as Hc3'.
  { rewrite Hc3. subst s2. cbn. by rewrite <- app_assoc. }
  destruct (issue_creator data) as [creator|].
  - unfold bind in Hr. rewrite (subscribeToIssue_run _ _ _ _ Hcl3) in Hr.
    set (s4 := logged _ _) in Hr.
    assert (linear_available env s4) as Hcl4 by by left.
    assert (calls s4 = calls s1
              ++ (IssueUpdate (issue_id data) (newIssueUpdate plan valid)
                  :: (IssueCreate (issue_id data)
                        <$> requestedSubtasks (subtasks plan)))
              ++ [IssueSubscriptionCreate (issue_id data) (creator_id creator)])
      as Hc4.
    { subst s4. cbn. rewrite Hc3'. by rewrite <- app_assoc. }
    split; [|split; [eauto|split; done]].
    intros ? [= <-].
    destruct (mutation w (calls s3 ++ _)) as [|[]];
      cbn [mutation_result] in Hr.
    + subst r. erewrite issued_app by exact Hc4.
      rewrite elem_of_app, list_elem_of_singleton. by right.
    + rewrite (addReaction_run _ _ _ _ Hcl4) in Hr. subst r.
      erewrite issued_app
        by (cbn [snd calls logged with_linear]; rewrite Hc4;
            rewrite <- app_assoc; reflexivity).
      rewrite !elem_of_app, !list_elem_of_singleton. by left; right.
    + subst r. erewrite issued_app by exact Hc4.
      rewrite elem_of_app, list_elem_of_singleton. by right.
  - unfold bind in Hr. cbn [ret] in Hr.
    rewrite (addReaction_run _ _ _ _ Hcl3) in Hr. subst r.
    erewrite issued_app
      by (cbn [snd calls logged with_linear]; rewrite Hc3';
          rewrite <- app_assoc; reflexivity).
    split; [done|]. split; [|split; [done|]].
    + intros c Hc Hs. exfalso.
      rewrite elem_of_app, elem_of_cons, list_elem_of_fmap,
        list_elem_of_singleton in Hc.
      destruct Hc as [[->|(? & -> & _)]| ->]; discriminate.
    + intros _ Hdone. cbn [fst]. rewrite Hc3', <- app_assoc.
      by rewrite <- app_comm_cons, Hdone.
Qed.

(** ** worker.ts: re-triage *)

Lemma handleComment_plan data env s issue plan s2 :
  ¬ contains BOT_MARKER (comment_body data) →
  linear_available env s →
  issue_query w (calls s ++ [IssueQuery (comment_issue data)])
    = GqlData (Some issue) →
  awaiting_info env issue →
  requestRetriagePlan (comment_issue data) issue env
    (logged (IssueQuery (comment_issue data)) (with_linear s)) = (Ok plan, s2) →
  handleComment data env s
  = executeRetriagePlan w (comment_issue data) issue env plan s2.
Proof.
  intros Hbot Hcl Hq Haw Hplan. unfold handleComment.
  destruct (includes BOT_MARKER (comment_body data)) eqn:E.
  { by apply includes_spec in E. }
  unfold bind at 1, getIssue, bind at 1.
  rewrite (makeGraphQLRequest_run _ _ _ _ Hcl), Hq. cbn [ret].
  apply awaiting_info_guard in Haw. rewrite Haw.
  unfold bind. by rewrite Hplan.
Qed.

Lemma finalLabelIds_set env issue valid marker :
  AWAITING_INFO_LABEL_ID env = Some marker →
  list_to_set (finalLabelIds env issue valid)
  =@{gset string}
  list_to_set (fetched_labelIds issue) ∖ {[marker]} ∪ list_to_set valid.
Proof.
  intros Hm. unfold finalLabelIds. apply set_eq. intros x.
  rewrite list_to_set_app_L, !elem_of_union, elem_of_difference,
    !elem_of_list_to_set, list_elem_of_filter, elem_of_singleton, Hm.
  split; intros [[? ?]|?]; auto; left; split; congruence.
Qed.

(** C8: on the completion path of re-triage, the first call after label
    validation is the issue update, and the label list it carries is, as a
    set, the issue's current labels without the awaiting-info marker united
    with the validated new labels; for current labels [A; MARKER] and
    validated labels [B; C] it is [A; B; C]. *)
Theorem handleComment_label_merge data env s issue plan s2 s3 valid marker :
  ¬ contains BOT_MARKER (comment_body data) →
  linear_available env s →
  issue_query w (calls s ++ [IssueQuery (comment_issue data)])
    = GqlData (Some issue) →
  AWAITING_INFO_LABEL_ID env = Some marker →
  nonempty marker = true →
  marker ∈ fetched_labelIds issue →
  requestRetriagePlan (comment_issue data) issue env
    (logged (IssueQuery (comment_issue data)) (with_linear s)) = (Ok plan, s2) →
  asksClarification plan = false →
  validateLabelIds w env (default [] (labelIds plan)) s2 = (Ok valid, s3) →
  linear_available env s3 →
  ∃ sent rest,
    issued s3 (handleComment data env s).2
    = IssueUpdate (comment_issue data) (retriageUpdate plan sent) :: rest
    ∧ upd_labelIds (retriageUpdate plan sent) = Some sent
    ∧ list_to_set sent
      =@{gset string}
      list_to_set (fetched_labelIds issue) ∖ {[marker]} ∪ list_to_set valid
    ∧ (∀ A B C, A ≠ marker → fetched_labelIds issue = [A; marker] →
         valid = [B; C] → sent = [A; B; C]).
Proof.
  intros Hbot Hcl Hq Hm Hne Hin Hplan Hask Hvalid Hcl3.
  assert (awaiting_info env issue) as Haw by (exists marker; eauto).
  rewrite (handleComment_plan _ _ _ _ _ _ Hbot Hcl Hq Haw Hplan).
  unfold executeRetriagePlan. rewrite Hask. unfold bind at 1. rewrite Hvalid.
  unfold bind at 1. rewrite (updateIssue_run _ _ _ _ Hcl3).
  set (s4 := logged _ _).
  assert (linear_available env s4) as Hcl4 by by left.
  exists (finalLabelIds env issue valid).
  assert (∀ A B C, A ≠ marker → fetched_labelIds issue = [A; marker] →
            valid = [B; C] → finalLabelIds env issue valid = [A; B; C]) as Hex.
  { intros A B C HA Hl ->. unfold finalLabelIds. rewrite Hl, Hm.
    rewrite filter_cons, decide_True by congruence.
    rewrite filter_cons, decide_False by (intros H; by apply H).
    done. }
  destruct (mutation w _) as [|[]]; cbn [mutation_result].
  - exists []. split; [by apply issued_app|].
    split; [done|]. split; [by apply finalLabelIds_set | done].
  - destruct (createRequestedSubtasks_run env (comment_issue data)
                (subtasks plan) s4 Hcl4) as (s5 & E5 & Hc5 & Hcl5).
    unfold bind. rewrite E5, (addReaction_run _ _ _ _ Hcl5).
    eexists. split.
    + apply issued_app. cbn [snd calls logged with_linear]. rewrite Hc5.
      subst s4. cbn [calls logged with_linear].
      rewrite <- !app_assoc. reflexivity.
    + split; [done|]. split; [by apply finalLabelIds_set | done].
  - exists []. split; [by apply issued_app|].
    split; [done|]. split; [by apply finalLabelIds_set | done].
Qed.

(** ** llm.ts: the retry loop *)

Lemma attempt_run env prompt issueContent s :
  match valid_plan
          (chat w (calls (logged (completion env prompt issueContent) s))) with
  | Some plan =>
      attempt w (or_else (OPENAI_MODEL env) "gpt-4o-mini") prompt issueContent s
      = (Ok plan, logged (completion env prompt issueContent) s)
  | None =>
      ∃ e,
        attempt w (or_else (OPENAI_MODEL env) "gpt-4o-mini") prompt
          issueContent s
        = (Throw e, logged (completion env prompt issueContent) s)
  end.
Proof.
  unfold attempt, bind, emit, completion. cbn.
  destruct (chat w _) as [| | |j]; cbn; eauto.
  destruct (TriagePlanSchema_parse j); eauto.
Qed.

Lemma getTriagePlan_unavailable env prompt issueContent s :
  openai s = false → truthy (OPENAI_API_KEY env) = false →
  getTriagePlan w env prompt issueContent s = (Throw OpenAIKeyNotSet, s).
Proof.
  intros H1 H2. unfold getTriagePlan, bind, getOpenAIClient. by rewrite H1, H2.
Qed.

Lemma openai_available_dec env s :
  openai_available env s
  ∨ (openai s = false ∧ truthy (OPENAI_API_KEY env) = false).
Proof.
  unfold openai_available.
  destruct (openai s), (truthy (OPENAI_API_KEY env)); auto.
Qed.

(** The loop, unrolled: the outcome is decided by the first reply that
    carries a valid plan. *)
Lemma getTriagePlan_unfold env prompt issueContent s :
  openai_available env s →
  let c := completion env prompt issueContent in
  let s1 := logged c (with_openai s) in
  let s2 := logged c (logged (Delay (RETRY_DELAY_MS * 1)) s1) in
  let s3 := logged c (logged (Delay (RETRY_DELAY_MS * 2)) s2) in
  getTriagePlan w env prompt issueContent s =
    match valid_plan (chat w (calls s1)) with
    | Some plan => (Ok plan, s1)
    | None =>
        match valid_plan (chat w (calls s2)) with
        | Some plan => (Ok plan, s2)
        | None =>
            match valid_plan (chat w (calls s3)) with
            | Some plan => (Ok plan, s3)
            | None => (Throw PlanGenerationFailed, s3)
            end
        end
    end.
Proof.
  intros Hav c s1 s2 s3. unfold getTriagePlan, bind.
  rewrite (getOpenAIClient_run _ _ Hav).
  change (Z.to_nat MAX_RETRIES) with 3%nat. cbn [retry_loop].
  unfold try_catch at 1.
  pose proof (attempt_run env prompt issueContent (with_openai s)) as H1.
  change (logged (completion env prompt issueContent) (with_openai s))
    with s1 in H1.
  destruct (valid_plan (chat w (calls s1))); [by rewrite H1|].
  destruct H1 as [e1 ->].
  change (0 =? MAX_RETRIES - 1) with false. cbn iota.
  unfold bind at 1, emit at 1. unfold try_catch at 1.
  pose proof (attempt_run env prompt issueContent
                (logged (Delay (RETRY_DELAY_MS * (0 + 1))) s1)) as H2.
  change (logged (completion env prompt issueContent)
            (logged (Delay (RETRY_DELAY_MS * (0 + 1))) s1)) with s2 in H2.
  destruct (valid_plan (chat w (calls s2))); [by rewrite H2|].
  destruct H2 as [e2 ->].
  change (0 + 1 =? MAX_RETRIES - 1) with false. cbn iota.
  unfold bind at 1, emit at 1. unfold try_catch at 1.
  pose proof (attempt_run env prompt issueContent
                (logged (Delay (RETRY_DELAY_MS * (0 + 1 + 1))) s2)) as H3.
  change (logged (completion env prompt issueContent)
            (logged (Delay (RETRY_DELAY_MS * (0 + 1 + 1))) s2)) with s3 in H3.
  destruct (valid_plan (chat w (calls s3))); [by rewrite H3|].
  destruct H3 as [e3 ->].
  reflexivity.
Qed.

Lemma quiet_ret {A} (a : A) : quiet (ret a).
Proof. intros s. exists []. cbn. by rewrite app_nil_r. Qed.

Lemma quiet_throw {A} (e : Error) : quiet (throw (A:=A) e).
Proof. intros s. exists []. cbn. by rewrite app_nil_r. Qed.

Lemma quiet_bind {A B} (m : M A) (k : A → M B) :
  quiet m → (∀ a, quiet (k a)) → quiet (bind m k).
Proof.
  intros Hm Hk s. destruct (Hm s) as (n1 & E1 & Q1). unfold bind.
  destruct (m s) as [[a|e] s1]; cbn in E1.
  - destruct (Hk a s1) as (n2 & E2 & Q2). exists (n1 ++ n2).
    rewrite E2, E1, <- app_assoc. split; [done|].
    unfold mutations in *. by rewrite filter_app, Q1, Q2.
  - exists n1. done.
Qed.

Lemma quiet_bind_fails {A B} (m : M A) (k : A → M B) :
  quiet m → fails m → quiet (bind m k) ∧ fails (bind m k).
Proof.
  intros Hm Hf. split; intros s; destruct (Hm s) as (n1 & E1 & Q1);
    destruct (Hf s) as (e & Ee); unfold bind;
    destruct (m s) as [[a|e'] s1]; cbn in *; try discriminate; eauto.
Qed.

Lemma fails_bind_r {A B} (m : M A) (k : A → M B) :
  (∀ a, fails (k a)) → fails (bind m k).
Proof.
  intros Hk s. unfold bind. destruct (m s) as [[a|e] s1]; [apply Hk|].
  by exists e.
Qed.

Lemma quiet_kv {A} key (entry : list Call → KvEntry A) :
  quiet (log <- emit (KvGet key);; kv_parse key (entry log)).
Proof.
  intros s. exists [KvGet key]. unfold bind, emit. cbn.
  by destruct (entry _).
Qed.

Lemma quiet_query {A} env c (reply : list Call → Gql A) :
  is_mutation c = false → quiet (makeGraphQLRequest env c reply).
Proof.
  intros Hc s. destruct (linear_available_dec env s) as [Hcl|[H1 H2]].
  - rewrite (makeGraphQLRequest_run _ _ _ _ Hcl). exists [c].
    split; [done|]. unfold mutations. rewrite filter_cons, decide_False; [done|].
    rewrite Hc. by intros [].
  - rewrite (makeGraphQLRequest_unavailable _ _ _ _ H1 H2). exists [].
    cbn. by rewrite app_nil_r.
Qed.

Lemma quiet_getIssue env issueId : quiet (getIssue w env issueId).
Proof.
  apply quiet_bind; [by apply quiet_query|].
  intros [issue|]; [apply quiet_ret | apply quiet_throw].
Qed.

Lemma quiet_getComments env issueId : quiet (getComments w env issueId).
Proof.
  apply quiet_bind; [by apply quiet_query|].
  intros [ns|]; [apply quiet_ret | apply quiet_throw].
Qed.

(** In any world the model is called at most three times, with pauses of
    one and two base delays in between. *)
Lemma getTriagePlan_schedule env prompt issueContent s :
  ∃ new,
    calls (getTriagePlan w env prompt issueContent s).2 = calls s ++ new
    ∧ new `prefix_of` retry_schedule (completion env prompt issueContent).
Proof.
  destruct (openai_available_dec env s) as [Hav|[H1 H2]].
  - rewrite (getTriagePlan_unfold _ _ _ _ Hav). cbn zeta.
    set (c := completion env prompt issueContent).
    destruct (valid_plan _).
    { exists [c]. split; [done|]. by eexists. }
    destruct (valid_plan _).
    { exists [c; Delay (RETRY_DELAY_MS * 1); c]. cbn.
      rewrite <- !app_assoc. split; [done|]. by eexists. }
    assert (∀ r : Result TriagePlan,
              let s3 := logged c (logged (Delay (RETRY_DELAY_MS * 2))
                          (logged c (logged (Delay (RETRY_DELAY_MS * 1))
                             (logged c (with_openai s))))) in
              ∃ new, calls (r, s3).2 = calls s ++ new
                     ∧ new `prefix_of` retry_schedule c) as Hfull.
    { intros r. exists (retry_schedule c). cbn. rewrite <- !app_assoc.
      split; [done|]. by exists []. }
    destruct (valid_plan _); apply Hfull.
  - rewrite (getTriagePlan_unavailable _ _ _ _ H1 H2). exists []. cbn.
    rewrite app_nil_r. split; [done|]. apply prefix_nil.
Qed.

Lemma quiet_getTriagePlan env prompt issueContent :
  quiet (getTriagePlan w env prompt issueContent).
Proof.
  intros s. destruct (getTriagePlan_schedule env prompt issueContent s)
    as (new & E & [k Hk]).
  exists new. split; [done|].
  assert (mutations (retry_schedule (completion env prompt issueContent)) = [])
    as Hq by reflexivity.
  rewrite Hk in Hq. unfold mutations in *. rewrite filter_app in Hq.
  by apply app_eq_nil in Hq as [? _].
Qed.

Lemma getTriagePlan_exhausted env prompt issueContent s :
  (∀ log, valid_plan (chat w log) = None) →
  openai_available env s →
  (getTriagePlan w env prompt issueContent s).1 = Throw PlanGenerationFailed
  ∧ calls (getTriagePlan w env prompt issueContent s).2
    = calls s ++ retry_schedule (completion env prompt issueContent).
Proof.
  intros Hbad Hav. rewrite (getTriagePlan_unfold _ _ _ _ Hav). cbn zeta.
  rewrite !Hbad. cbn. by rewrite <- !app_assoc.
Qed.

Lemma fails_getTriagePlan env prompt issueContent :
  (∀ log, valid_plan (chat w log) = None) →
  fails (getTriagePlan w env prompt issueContent).
Proof.
  intros Hbad s. destruct (openai_available_dec env s) as [Hav|[H1 H2]].
  - exists PlanGenerationFailed. by apply getTriagePlan_exhausted.
  - rewrite (getTriagePlan_unavailable _ _ _ _ H1 H2). by eexists.
Qed.

(** ** worker.ts: when plan generation fails *)

Lemma quiet_requestNewIssuePlan data env :
  quiet (requestNewIssuePlan data env).
Proof.
  apply quiet_bind; [apply (quiet_kv KB_KEY (kv_team_rules w))|]. intros teamKb.
  apply quiet_bind; [apply (quiet_kv LABELS_KEY (kv_labels w))|]. intros labelKb.
  apply quiet_getTriagePlan.
Qed.

Lemma fails_requestNewIssuePlan data env :
  (∀ log, valid_plan (chat w log) = None) →
  fails (requestNewIssuePlan data env).
Proof.
  intros Hbad. apply fails_bind_r. intros teamKb.
  apply fails_bind_r. intros labelKb. by apply fails_getTriagePlan.
Qed.

Lemma quiet_requestRetriagePlan issueId issue env :
  quiet (requestRetriagePlan issueId issue env).
Proof.
  apply quiet_bind; [apply (quiet_kv KB_KEY (kv_team_rules w))|]. intros teamKb.
  apply quiet_bind; [apply (quiet_kv LABELS_KEY (kv_labels w))|]. intros labelKb.
  apply quiet_bind; [apply quiet_getComments|]. intros comments.
  apply quiet_getTriagePlan.
Qed.

Lemma fails_requestRetriagePlan issueId issue env :
  (∀ log, valid_plan (chat w log) = None) →
  fails (requestRetriagePlan issueId issue env).
Proof.
  intros Hbad. apply fails_bind_r. intros teamKb.
  apply fails_bind_r. intros labelKb.
  apply fails_bind_r. intros comments. by apply fails_getTriagePlan.
Qed.

Lemma handleNewIssue_exhausted data env s :
  (∀ log, valid_plan (chat w log) = None) →
  kb_stored w → openai_available env s →
  (handleNewIssue data env s).1 = Throw PlanGenerationFailed.
Proof.
  intros Hbad [Ht Hl] Hav.
  unfold handleNewIssue, requestNewIssuePlan,
    getTeamKnowledgeBase, getLabelKnowledgeBase.
  unfold bind at 1 2 3, emit.
  destruct (Ht (calls s ++ [KvGet KB_KEY])) as [teamKb ->]. cbn [kv_parse ret].
  unfold bind at 1 2.
  destruct (Hl (calls (logged (KvGet KB_KEY) s) ++ [KvGet LABELS_KEY]))
    as [labelKb ->]. cbn [kv_parse ret].
  set (s2 := logged (KvGet LABELS_KEY) _). unfold bind.
  assert (openai_available env s2) as Hav2 by (destruct Hav; [by left|by right]).
  destruct (getTriagePlan_exhausted env
              (promptWithKb SYSTEM_PROMPT stringify_team stringify_labels
                 env teamKb labelKb)
              ("Title: " +:+ issue_title data +:+ nl +:+ nl +:+ "Description: "
               +:+ or_else (issue_description data) EmptyString)
              s2 Hbad Hav2) as [E _].
  destruct (getTriagePlan _ _ _ _ s2) as [[plan|e] s3]; cbn in *; congruence.
Qed.

(** C6: plan generation calls the model at most three times, pausing one
    base delay after the first failure and two after the second; when no
    reply ever carries a valid plan it throws [PlanGenerationFailed] after
    the third attempt, the new-issue handler throws (that very error once
    the knowledge bases are read and the model client exists), and neither
    handler issues a single tracker mutation. *)
Theorem plan_generation_bounded_retry env :
  (∀ prompt issueContent s,
     ∃ new,
       calls (getTriagePlan w env prompt issueContent s).2 = calls s ++ new
       ∧ new `prefix_of` retry_schedule (completion env prompt issueContent))
  ∧ ((∀ log, valid_plan (chat w log) = None) →
     (∀ prompt issueContent s,
        openai_available env s →
        (getTriagePlan w env prompt issueContent s).1
          = Throw PlanGenerationFailed
        ∧ calls (getTriagePlan w env prompt issueContent s).2
          = calls s ++ retry_schedule (completion env prompt issueContent))
     ∧ (∀ data s,
          (∃ e, (handleNewIssue data env s).1 = Throw e)
          ∧ ∃ new, calls (handleNewIssue data env s).2 = calls s ++ new
                   ∧ mutations new = [])
     ∧ (∀ data s,
          kb_stored w → openai_available env s →
          (handleNewIssue data env s).1 = Throw PlanGenerationFailed)
     ∧ (∀ data s,
          ∃ new, calls (handleComment data env s).2 = calls s ++ new
                 ∧ mutations new = [])).
Proof.
  split; [intros; apply getTriagePlan_schedule|].
  intros Hbad. split; [intros; by apply getTriagePlan_exhausted|].
  split; [|split].
  - intros data s.
    destruct (quiet_bind_fails (requestNewIssuePlan data env)
                (executeNewIssuePlan w data env)
                (quiet_requestNewIssuePlan data env)
                (fails_requestNewIssuePlan data env Hbad)) as [Hq Hf].
    split; [apply Hf | apply Hq].
  - intros data s Hkb Hav. by apply handleNewIssue_exhausted.
  - intros data. unfold handleComment.
    destruct (includes BOT_MARKER (comment_body data)); [apply quiet_ret|].
    apply quiet_bind; [apply quiet_getIssue|]. intros issue.
    destruct (_ || _); [apply quiet_ret|].
    apply quiet_bind_fails;
      [apply quiet_requestRetriagePlan | by apply fails_requestRetriagePlan].
Qed.

(** ** llm.ts: what the schema asks of the clarification comment *)






End Properties.

(** * The theorems at work on the demo deployment *)

(** C2: on the new-issue path the rewrite of a complete plan is not applied.
    The model returns a plan without clarification whose [rewrite] carries a
    new title; the update issued by [handleNewIssue] has neither [title] nor
    [description], while [handleComment] given the same plan sends the title. *)
Theorem handleNewIssue_drops_rewrite :
  TriagePlanSchema_parse Demo.complete = Some Demo.complete_plan
  ∧ mutations (calls (Demo.onNewIssue Demo.complete Demo.boot).2)
    = [IssueUpdate "ISS-1"
         {| upd_title := None;
            upd_description := None;
            upd_teamId := Some "team-id-1";
            upd_labelIds := Some ["label-id-bug"];
            upd_estimate := Some (3 # 1);
            upd_priority := Some 2;
            upd_assigneeId := None |};
       IssueSubscriptionCreate "ISS-1" "user-1";
       ReactionCreate "ISS-1" DONE_EMOJI]
  ∧ mutations
      (calls (Demo.onComment Demo.complete ["A"; "MARKER"] "It is the login page"
                Demo.boot).2)
    = [IssueUpdate "ISS-1"
         {| upd_title := Some "Login button ignores clicks";
            upd_description := None;
            upd_teamId := Some "team-id-1";
            upd_labelIds := Some ["A"; "label-id-bug"];
            upd_estimate := Some (3 # 1);
            upd_priority := Some 2;
            upd_assigneeId := None |};
       ReactionCreate "ISS-1" DONE_EMOJI].
Proof. repeat split; vm_compute; reflexivity. Qed.

(** Against C1 as stated: the plan asks for clarification but has no comment;
    no comment is created and the plan's team is written to the issue. *)
Lemma clarification_without_comment_is_applied :
  TriagePlanSchema_parse Demo.bare = Some Demo.bare_plan
  ∧ needsClarification Demo.bare_plan = true
  ∧ mutations (calls (Demo.onNewIssue Demo.bare Demo.boot).2)
    = [IssueUpdate "ISS-1"
         {| upd_title := None;
            upd_description := None;
            upd_teamId := Some "team-id-9";
            upd_labelIds := Some [];
            upd_estimate := None;
            upd_priority := None;
            upd_assigneeId := None |};
       IssueSubscriptionCreate "ISS-1" "user-1";
       ReactionCreate "ISS-1" DONE_EMOJI].
Proof. repeat split; vm_compute; reflexivity. Qed.

(** Against C3 as stated: a human comment on an issue without the marker
    makes the handler read the issue from the tracker, a remote call. *)
Lemma relevance_guard_reads_the_issue :
  includes BOT_MARKER "Any update?" = false
  ∧ is_remote (IssueQuery "ISS-1") = true
  ∧ array_includes (fetched_labelIds (Demo.issue ["label-id-bug"]))
      (AWAITING_INFO_LABEL_ID Demo.env) = false
  ∧ Demo.onComment Demo.clarify ["label-id-bug"] "Any update?" Demo.boot
    = (Ok (), {| openai := false; linearClient := true;
                 calls := [IssueQuery "ISS-1"] |}).
Proof. repeat split; vm_compute; reflexivity. Qed.



(** ** Instances of the theorems *)


Lemma handleComment_ignores_bot_comments_witness :
  Demo.onComment Demo.complete ["MARKER"] "Can you clarify X?<!-- bot -->"
    Demo.boot = (Ok (), Demo.boot).
Proof.
  refine (proj1 (handleComment_ignores_bot_comments Demo.prompt
                   Demo.stringify_team Demo.stringify_labels
                   (Demo.world (ChatJson Demo.complete) ["MARKER"])
                   (Demo.comment "Can you clarify X?<!-- bot -->")
                   Demo.env Demo.boot _)).
  exists "Can you clarify X?", EmptyString. reflexivity.
Defined.

Lemma handleComment_relevance_guard_witness :
  (Demo.onComment Demo.complete ["label-id-bug"] "Any update?" Demo.boot).1
  = Ok ()
  ∧ issued Demo.boot
      (Demo.onComment Demo.complete ["label-id-bug"] "Any update?" Demo.boot).2
    = [IssueQuery "ISS-1"].
Proof.
  apply (handleComment_relevance_guard Demo.prompt Demo.stringify_team
           Demo.stringify_labels
           (Demo.world (ChatJson Demo.complete) ["label-id-bug"])
           (Demo.comment "Any update?") Demo.env Demo.boot
           (Demo.issue ["label-id-bug"])).
  - intros H%includes_spec. vm_compute in H. discriminate.
  - right. reflexivity.
  - reflexivity.
  - intros (marker & [= <-] & _ & Hin). cbn in Hin. by in_explicit_list Hin.
Defined.

Lemma handleNewIssue_clarification_witness :
  issued (Demo.planned Demo.clarify)
    (Demo.onNewIssue Demo.clarify Demo.boot).2
  = [CommentCreate "ISS-1" "Can you clarify X?<!-- bot -->";
     IssueUpdate "ISS-1" (labels_only ["MARKER"])].
Proof.
  refine (proj2 (handleNewIssue_clarification Demo.prompt Demo.stringify_team
                   Demo.stringify_labels (Demo.world (ChatJson Demo.clarify) [])
                   Demo.newIssue Demo.env Demo.clarify_plan
                   "Can you clarify X?<!-- bot -->" Demo.boot
                   (Demo.planned Demo.clarify) _ _ _ _ _ _)
            "MARKER" _ _);
    first [reflexivity | right; reflexivity].
Defined.

Lemma handleNewIssue_marker_is_whole_label_list_witness :
  IssueUpdate "ISS-1" (labels_only ["MARKER"])
    ∈ issued (Demo.planned Demo.clarify)
        (Demo.onNewIssue Demo.clarify Demo.boot).2.
Proof.
  refine (proj2 (handleNewIssue_marker_is_whole_label_list Demo.prompt
                   Demo.stringify_team Demo.stringify_labels
                   (Demo.world (ChatJson Demo.clarify) [])
                   Demo.newIssue Demo.env Demo.clarify_plan Demo.boot
                   (Demo.planned Demo.clarify) "MARKER" _ _ _ _) _ _);
    first [reflexivity | right; reflexivity].
Defined.

Lemma handleNewIssue_creator_subscription_witness :
  IssueSubscriptionCreate "ISS-1" "user-1"
    ∈ issued
        (validateLabelIds (Demo.world (ChatJson Demo.complete) []) Demo.env
           ["label-id-bug"; "label-id-fake"] (Demo.planned Demo.complete)).2
        (Demo.onNewIssue Demo.complete Demo.boot).2.
Proof.
  refine (proj1 (handleNewIssue_creator_subscription Demo.prompt
                   Demo.stringify_team Demo.stringify_labels
                   (Demo.world (ChatJson Demo.complete) [])
                   Demo.newIssue Demo.env Demo.complete_plan Demo.boot
                   (Demo.planned Demo.complete)
                   (validateLabelIds (Demo.world (ChatJson Demo.complete) [])
                      Demo.env ["label-id-bug"; "label-id-fake"]
                      (Demo.planned Demo.complete)).2
                   ["label-id-bug"] _ _ _ _ _)
            {| creator_id := "user-1" |} _);
    first [reflexivity | right; reflexivity].
Defined.

Lemma handleComment_label_merge_witness :
  ∃ sent rest,
    issued
      (validateLabelIds (Demo.world (ChatJson Demo.complete) ["A"; "MARKER"])
         Demo.env ["label-id-bug"; "label-id-fake"]
         (Demo.replanned Demo.complete ["A"; "MARKER"])).2
      (Demo.onComment Demo.complete ["A"; "MARKER"] "It is the login page"
         Demo.boot).2
    = IssueUpdate "ISS-1" (retriageUpdate Demo.complete_plan sent) :: rest
    ∧ list_to_set sent
      =@{gset string}
      list_to_set ["A"; "MARKER"] ∖ {["MARKER"]} ∪ list_to_set ["label-id-bug"]
    ∧ sent = ["A"; "label-id-bug"].
Proof.
  destruct (handleComment_label_merge Demo.prompt Demo.stringify_team
              Demo.stringify_labels
              (Demo.world (ChatJson Demo.complete) ["A"; "MARKER"])
              (Demo.comment "It is the login page") Demo.env Demo.boot
              (Demo.issue ["A"; "MARKER"]) Demo.complete_plan
              (Demo.replanned Demo.complete ["A"; "MARKER"])
              (validateLabelIds
                 (Demo.world (ChatJson Demo.complete) ["A"; "MARKER"])
                 Demo.env ["label-id-bug"; "label-id-fake"]
                 (Demo.replanned Demo.complete ["A"; "MARKER"])).2
              ["label-id-bug"] "MARKER")
    as (sent & rest & H1 & _ & H3 & _).
  - intros H%includes_spec. vm_compute in H. discriminate.
  - right. reflexivity.
  - reflexivity.
  - reflexivity.
  - reflexivity.
  - cbn. apply list_elem_of_further, list_elem_of_here.
  - vm_compute. reflexivity.
  - reflexivity.
  - vm_compute. reflexivity.
  - left. reflexivity.
  - exists sent, rest. split; [exact H1|]. split; [exact H3|].
    vm_compute in H1. by injection H1 as ->.
Defined.

Lemma plan_generation_bounded_retry_witness :
  (handleNewIssue Demo.prompt Demo.stringify_team Demo.stringify_labels
     (Demo.world ChatNotJson []) Demo.newIssue Demo.env Demo.boot).1
  = Throw PlanGenerationFailed.
Proof.
  refine (proj1 (proj2 (proj2 (proj2 (plan_generation_bounded_retry Demo.prompt
            Demo.stringify_team Demo.stringify_labels
            (Demo.world ChatNotJson []) Demo.env) _)))
            Demo.newIssue Demo.boot _ _).
  - intros log. reflexivity.
  - split; intros log; eexists; reflexivity.
  - right. reflexivity.
Defined.


(** * More of the code: what each call may be, how failures end an event *)

Section Scope.

Context (SYSTEM_PROMPT : string).
Context (stringify_team : TeamKnowledgeBase → string).
Context (stringify_labels : LabelDocument → string).
Context (w : World).

#[local] Abbreviation requestNewIssuePlan :=
  (requestNewIssuePlan SYSTEM_PROMPT stringify_team stringify_labels w).
#[local] Abbreviation handleNewIssue :=
  (handleNewIssue SYSTEM_PROMPT stringify_team stringify_labels w).
#[local] Abbreviation requestRetriagePlan :=
  (requestRetriagePlan SYSTEM_PROMPT stringify_team stringify_labels w).
#[local] Abbreviation handleComment :=
  (handleComment SYSTEM_PROMPT stringify_team stringify_labels w).
#[local] Abbreviation fetch :=
  (fetch SYSTEM_PROMPT stringify_team stringify_labels w).

(** ** The calls of a computation, compositionally *)

Lemma emits_ret {A} P (a : A) : emits P (ret a).
Proof. intros s. exists []. cbn. by rewrite app_nil_r. Qed.

Lemma emits_throw {A} P (e : Error) : emits P (throw (A:=A) e).
Proof. intros s. exists []. cbn. by rewrite app_nil_r. Qed.

Lemma emits_bind {A B} P (m : M A) (k : A → M B) :
  emits P m → (∀ a, emits P (k a)) → emits P (bind m k).
Proof.
  intros Hm Hk s. destruct (Hm s) as (n1 & E1 & Q1). unfold bind.
  destruct (m s) as [[a|e] s1]; cbn in E1.
  - destruct (Hk a s1) as (n2 & E2 & Q2). exists (n1 ++ n2).
    rewrite E2, E1, <- app_assoc. split; [done|]. by apply Forall_app.
  - exists n1. done.
Qed.

Lemma emits_try_catch {A} P (m : M A) (h : Error → M A) :
  emits P m → (∀ e, emits P (h e)) → emits P (try_catch m h).
Proof.
  intros Hm Hh s. destruct (Hm s) as (n1 & E1 & Q1). unfold try_catch.
  destruct (m s) as [[a|e] s1]; cbn in E1.
  - exists n1. done.
  - destruct (Hh e s1) as (n2 & E2 & Q2). exists (n1 ++ n2).
    rewrite E2, E1, <- app_assoc. split; [done|]. by apply Forall_app.
Qed.

Lemma emits_settle {A} P (m : M A) : emits P m → emits P (settle m).
Proof.
  intros Hm s. destruct (Hm s) as (n1 & E1 & Q1). unfold settle.
  destruct (m s) as [[a|e] s1]; exists n1; done.
Qed.

Lemma emits_all_settled {A B} P (f : A → M B) xs :
  (∀ x, x ∈ xs → emits P (f x)) → emits P (all_settled f xs).
Proof.
  induction xs as [|x xs IH]; intros Hf; [apply emits_ret|].
  cbn [all_settled]. apply emits_bind.
  { apply emits_settle, Hf, list_elem_of_here. }
  intros r. apply emits_bind; [|intros rs; apply emits_ret].
  apply IH. intros y Hy. by apply Hf, list_elem_of_further.
Qed.

Lemma emits_emit P c : P c → emits P (emit c).
Proof. intros Hc s. exists [c]. split; [done|]. by apply Forall_singleton. Qed.

Lemma emits_getLinearClient P env : emits P (getLinearClient env).
Proof.
  intros s. exists []. unfold getLinearClient.
  destruct (linearClient s), (truthy (LINEAR_API_KEY env));
    cbn; by rewrite app_nil_r.
Qed.

Lemma emits_getOpenAIClient P env : emits P (getOpenAIClient env).
Proof.
  intros s. exists []. unfold getOpenAIClient.
  destruct (openai s), (truthy (OPENAI_API_KEY env));
    cbn; by rewrite app_nil_r.
Qed.

Lemma emits_kv {A} P key (entry : list Call → KvEntry A) :
  P (KvGet key) → emits P (log <- emit (KvGet key);; kv_parse key (entry log)).
Proof.
  intros Hk. apply emits_bind; [by apply emits_emit|].
  intros log. destruct (entry log); [apply emits_throw..|apply emits_ret].
Qed.

Lemma emits_request {A} P env c (reply : list Call → Gql A) :
  P c → emits P (makeGraphQLRequest env c reply).
Proof.
  intros Hc. apply emits_bind; [apply emits_getLinearClient|]. intros _.
  apply emits_bind; [by apply emits_emit|].
  intros log. destruct (reply log); [apply emits_throw|apply emits_ret].
Qed.

Lemma emits_mutation P env c (failed : Error) :
  P c →
  emits P (success <- makeGraphQLRequest env c (mutation w);;
           if success : bool then ret () else throw failed).
Proof.
  intros Hc. apply emits_bind; [by apply emits_request|].
  intros []; [apply emits_ret|apply emits_throw].
Qed.

Lemma emits_updateIssue P env issueId payload :
  P (IssueUpdate issueId payload) → emits P (updateIssue w env issueId payload).
Proof.
  intros Hc. apply emits_bind; [apply emits_getLinearClient|]. intros _.
  by apply emits_mutation.
Qed.

Lemma emits_getIssue P env issueId :
  P (IssueQuery issueId) → emits P (getIssue w env issueId).
Proof.
  intros Hc. apply emits_bind; [by apply emits_request|].
  intros [issue|]; [apply emits_ret|apply emits_throw].
Qed.

Lemma emits_getComments P env issueId :
  P (CommentsQuery issueId) → emits P (getComments w env issueId).
Proof.
  intros Hc. apply emits_bind; [by apply emits_request|].
  intros [ns|]; [apply emits_ret|apply emits_throw].
Qed.

Lemma emits_createMultipleSubtasks P env parentId subtasks :
  (∀ subtask, P (IssueCreate parentId subtask)) →
  emits P (createMultipleSubtasks w env parentId subtasks).
Proof.
  intros Hc. apply emits_bind; [|intros rs; apply emits_ret].
  apply emits_all_settled. intros subtask _. by apply emits_request.
Qed.

Lemma emits_createRequestedSubtasks P env issueId subtasks :
  (∀ subtask, P (IssueCreate issueId subtask)) →
  emits P (createRequestedSubtasks w env issueId subtasks).
Proof.
  intros Hc. unfold createRequestedSubtasks.
  destruct subtasks as [[|t ts]|]; try apply emits_ret.
  apply emits_bind; [by apply emits_createMultipleSubtasks|].
  intros _. apply emits_ret.
Qed.

Lemma emits_validateLabelIds P env labelIds :
  P (KvGet LABELS_KEY) → emits P (validateLabelIds w env labelIds).
Proof.
  intros Hk. apply emits_bind; [by apply (emits_kv P LABELS_KEY (kv_labels w))|].
  intros labelKb. destruct (negb _); [apply emits_ret|].
  apply emits_bind; [|intros ids; apply emits_ret]. unfold node_ids.
  destruct (kb_nodes labelKb) as [[| | | |items|]|]; try apply emits_throw.
  destruct (mapM node_id items); [apply emits_ret|apply emits_throw].
Qed.

Lemma emits_attempt P model prompt issueContent :
  P (ChatCompletion model prompt issueContent) →
  emits P (attempt w model prompt issueContent).
Proof.
  intros Hc. apply emits_bind; [by apply emits_emit|]. intros log.
  destruct (chat w log) as [| | |j]; try apply emits_throw.
  destruct (TriagePlanSchema_parse j); [apply emits_ret|apply emits_throw].
Qed.

Lemma emits_retry_loop P remaining i model prompt issueContent :
  P (ChatCompletion model prompt issueContent) → (∀ ms, P (Delay ms)) →
  emits P (retry_loop w remaining i model prompt issueContent).
Proof.
  intros Hc Hd. revert i. induction remaining as [|n IH]; intros i.
  - apply emits_throw.
  - cbn [retry_loop]. apply emits_try_catch; [by apply emits_attempt|].
    intros _. destruct (i =? MAX_RETRIES - 1); [apply emits_throw|].
    apply emits_bind; [by apply emits_emit|]. intros _. apply IH.
Qed.

Lemma emits_getTriagePlan P env prompt issueContent :
  (∀ model, P (ChatCompletion model prompt issueContent)) →
  (∀ ms, P (Delay ms)) →
  emits P (getTriagePlan w env prompt issueContent).
Proof.
  intros Hc Hd. apply emits_bind; [apply emits_getOpenAIClient|]. intros _.
  by apply emits_retry_loop.
Qed.

(** ** worker.ts: which calls a handler may issue *)

(** X1: in every world, whatever fails, the new-issue handler only appends
    to the log, and what it appends are reads of the knowledge bases, model
    calls, pauses, and mutations of the issue of the event (update, comment,
    subtasks parented to it, subscription, reaction); it never queries the
    tracker for the issue or its comments. *)
Theorem handleNewIssue_scope data env :
  emits (new_issue_scope (issue_id data)) (handleNewIssue data env).
Proof.
  apply emits_bind.
  - apply emits_bind;
      [by apply (emits_kv _ KB_KEY (kv_team_rules w))|]. intros teamKb.
    apply emits_bind;
      [by apply (emits_kv _ LABELS_KEY (kv_labels w))|]. intros labelKb.
    by apply emits_getTriagePlan.
  - intros plan. unfold executeNewIssuePlan.
    destruct (asksClarification plan).
    + apply emits_bind; [by apply emits_mutation|]. intros _.
      destruct (AWAITING_INFO_LABEL_ID env) as [marker|]; [|apply emits_ret].
      destruct (nonempty marker); [by apply emits_updateIssue|apply emits_ret].
    + apply emits_bind; [by apply emits_validateLabelIds|]. intros valid.
      apply emits_bind; [by apply emits_updateIssue|]. intros _.
      apply emits_bind; [by apply emits_createRequestedSubtasks|]. intros _.
      apply emits_bind; [|intros _; by apply emits_mutation].
      destruct (issue_creator data); [by apply emits_mutation|apply emits_ret].
Qed.

(** X2: in every world, whatever fails, the comment handler only appends to
    the log, and what it appends are reads of the knowledge bases, model
    calls, pauses, and queries and mutations of the issue the comment is on;
    it never subscribes anybody. *)
Theorem handleComment_scope data env :
  emits (comment_scope (comment_issue data)) (handleComment data env).
Proof.
  unfold handleComment.
  destruct (includes BOT_MARKER (comment_body data)); [apply emits_ret|].
  apply emits_bind; [by apply emits_getIssue|]. intros issue.
  destruct (_ || _); [apply emits_ret|].
  apply emits_bind.
  - apply emits_bind;
      [by apply (emits_kv _ KB_KEY (kv_team_rules w))|]. intros teamKb.
    apply emits_bind;
      [by apply (emits_kv _ LABELS_KEY (kv_labels w))|]. intros labelKb.
    apply emits_bind; [by apply emits_getComments|]. intros comments.
    by apply emits_getTriagePlan.
  - intros plan. unfold executeRetriagePlan.
    destruct (asksClarification plan); [by apply emits_mutation|].
    apply emits_bind; [by apply emits_validateLabelIds|]. intros valid.
    apply emits_bind; [by apply emits_updateIssue|]. intros _.
    apply emits_bind; [by apply emits_createRequestedSubtasks|]. intros _.
    by apply emits_mutation.
Qed.

Lemma two_phases {A B} P (m : M A) (k : A → M B) s :
  quiet m → (∀ a, emits P (k a)) →
  ∃ pre post,
    calls (bind m k s).2 = calls s ++ pre ++ post
    ∧ mutations pre = [] ∧ Forall P post.
Proof.
  intros Hm Hk. destruct (Hm s) as (pre & E1 & Q1). unfold bind.
  destruct (m s) as [[a|e] s1]; cbn in E1.
  - destruct (Hk a s1) as (post & E2 & Q2). exists pre, post.
    by rewrite E2, E1, <- app_assoc.
  - exists pre, []. by rewrite app_nil_r.
Qed.

Lemma executeNewIssuePlan_no_model_call data env plan :
  emits (λ c, is_model_call c = false) (executeNewIssuePlan w data env plan).
Proof.
  unfold executeNewIssuePlan. destruct (asksClarification plan).
  - apply emits_bind; [by apply emits_mutation|]. intros _.
    destruct (AWAITING_INFO_LABEL_ID env) as [marker|]; [|apply emits_ret].
    destruct (nonempty marker); [by apply emits_updateIssue|apply emits_ret].
  - apply emits_bind; [by apply emits_validateLabelIds|]. intros valid.
    apply emits_bind; [by apply emits_updateIssue|]. intros _.
    apply emits_bind; [by apply emits_createRequestedSubtasks|]. intros _.
    apply emits_bind; [|intros _; by apply emits_mutation].
    destruct (issue_creator data); [by apply emits_mutation|apply emits_ret].
Qed.

Lemma executeRetriagePlan_no_model_call issueId issue env plan :
  emits (λ c, is_model_call c = false)
    (executeRetriagePlan w issueId issue env plan).
Proof.
  unfold executeRetriagePlan.
  destruct (asksClarification plan); [by apply emits_mutation|].
  apply emits_bind; [by apply emits_validateLabelIds|]. intros valid.
  apply emits_bind; [by apply emits_updateIssue|]. intros _.
  apply emits_bind; [by apply emits_createRequestedSubtasks|]. intros _.
  by apply emits_mutation.
Qed.

(** X3: the log of either handler splits in two: first a part without any
    tracker mutation, which holds all the model calls and pauses, then a
    part without any model call or pause.  So no mutation is ever issued
    before plan generation has ended, and the model is never called again
    once a mutation has been issued. *)
Theorem mutations_follow_plan_generation env s :
  (∀ data, ∃ pre post,
     calls (handleNewIssue data env s).2 = calls s ++ pre ++ post
     ∧ mutations pre = []
     ∧ Forall (λ c, is_model_call c = false) post)
  ∧ (∀ data, ∃ pre post,
       calls (handleComment data env s).2 = calls s ++ pre ++ post
       ∧ mutations pre = []
       ∧ Forall (λ c, is_model_call c = false) post).
Proof.
  split; intros data.
  - apply two_phases.
    + apply quiet_requestNewIssuePlan.
    + intros plan. apply executeNewIssuePlan_no_model_call.
  - unfold handleComment.
    destruct (includes BOT_MARKER (comment_body data)).
    { exists [], []. cbn. by rewrite app_nil_r. }
    destruct (quiet_getIssue w env (comment_issue data) s) as (n1 & E1 & Q1).
    unfold bind at 1.
    destruct (getIssue w env (comment_issue data) s) as [[issue|e] s1];
      cbn in E1.
    + destruct (_ || _).
      { exists n1, []. cbn. by rewrite app_nil_r. }
      destruct (two_phases (λ c, is_model_call c = false)
                  (requestRetriagePlan (comment_issue data) issue env)
                  (λ plan,
                     executeRetriagePlan w (comment_issue data) issue env plan)
                  s1)
        as (pre & post & E2 & Q2 & F2).
      * apply quiet_requestRetriagePlan.
      * intros plan. apply executeRetriagePlan_no_model_call.
      * exists (n1 ++ pre), post. rewrite E2, E1, <- !app_assoc.
        split; [done|]. split; [|done].
        unfold mutations in *. by rewrite filter_app, Q1, Q2.
    + exists n1, []. cbn. by rewrite app_nil_r.
Qed.

(** ** kb.ts and worker.ts: a knowledge base that cannot be read *)

(** X4: when the store has no label document, or one that is not JSON,
    [validateLabelIds] throws for every input, the empty one included, after
    the one read of the store: a document that cannot be read is an error. *)
Theorem validateLabelIds_unreadable_store env labelIds s :
  (kv_labels w (calls s ++ [KvGet LABELS_KEY]) = KvAbsent →
   validateLabelIds w env labelIds s
   = (Throw (KnowledgeBaseNotFound LABELS_KEY), logged (KvGet LABELS_KEY) s))
  ∧ (kv_labels w (calls s ++ [KvGet LABELS_KEY]) = KvGarbage →
     validateLabelIds w env labelIds s
     = (Throw SyntaxError, logged (KvGet LABELS_KEY) s)).
Proof.
  split; intros H;
    unfold validateLabelIds, getLabelKnowledgeBase, bind, emit;
    by rewrite H.
Qed.

(** X5: validation is idempotent: what [validateLabelIds] returns, it
    returns again unchanged when given its own result against the same
    label document. *)
Theorem validateLabelIds_idempotent env labelIds s s' labelKb valid :
  kv_labels w (calls s ++ [KvGet LABELS_KEY]) = KvDoc labelKb →
  kv_labels w (calls s' ++ [KvGet LABELS_KEY]) = KvDoc labelKb →
  (validateLabelIds w env labelIds s).1 = Ok valid →
  (validateLabelIds w env valid s').1 = Ok valid.
Proof.
  intros H H'. rewrite (validateLabelIds_run w env labelIds s labelKb H),
    (validateLabelIds_run w env valid s' labelKb H'). cbn [fst].
  destruct (negb _); [by intros [= <-]|].
  destruct (kb_nodes labelKb) as [[| | | |items|]|]; try done.
  destruct (mapM node_id items) as [ids|]; [|done].
  intros [= <-]. f_equal. by apply list_filter_filter_l.
Qed.

(** X6: a new issue whose team rules are missing from the store ends after
    that one read; one whose label document is missing ends after the second
    read.  In both cases the handler throws [KnowledgeBaseNotFound] with the
    key, and the model is not called. *)
Theorem handleNewIssue_knowledge_base_missing data env s :
  (kv_team_rules w (calls s ++ [KvGet KB_KEY]) = KvAbsent →
   handleNewIssue data env s
   = (Throw (KnowledgeBaseNotFound KB_KEY), logged (KvGet KB_KEY) s))
  ∧ (∀ teamKb,
       kv_team_rules w (calls s ++ [KvGet KB_KEY]) = KvDoc teamKb →
       kv_labels w (calls s ++ [KvGet KB_KEY; KvGet LABELS_KEY]) = KvAbsent →
       handleNewIssue data env s
       = (Throw (KnowledgeBaseNotFound LABELS_KEY),
          logged (KvGet LABELS_KEY) (logged (KvGet KB_KEY) s))).
Proof.
  split.
  - intros H. unfold handleNewIssue, requestNewIssuePlan.
    unfold getTeamKnowledgeBase, bind, emit. by rewrite H.
  - intros teamKb H1 H2. unfold handleNewIssue, requestNewIssuePlan.
    unfold getTeamKnowledgeBase, getLabelKnowledgeBase, bind, emit.
    rewrite H1. cbn [kv_parse ret calls logged].
    rewrite <- app_assoc. cbn [app]. by rewrite H2.
Qed.

(** ** worker.ts: the comment handler when the issue cannot be fetched *)

(** X7: when the tracker rejects the query for the parent issue, or knows
    no such issue, the comment handler throws with that one query in the
    log: nothing is read from the store, the model is not called, nothing is
    written. *)
Theorem handleComment_issue_unavailable data env s :
  includes BOT_MARKER (comment_body data) = false →
  linear_available env s →
  (issue_query w (calls s ++ [IssueQuery (comment_issue data)]) = GqlRejected →
   handleComment data env s
   = (Throw GraphQLRequestFailed,
      logged (IssueQuery (comment_issue data)) (with_linear s)))
  ∧ (issue_query w (calls s ++ [IssueQuery (comment_issue data)])
       = GqlData None →
     handleComment data env s
     = (Throw (FailedToFetchIssue (comment_issue data)),
        logged (IssueQuery (comment_issue data)) (with_linear s))).
Proof.
  intros Hbot Hcl. unfold handleComment. rewrite Hbot.
  unfold bind at 1, getIssue, bind.
  rewrite (makeGraphQLRequest_run _ _ _ _ Hcl).
  split; by intros ->.
Qed.

(** ** worker.ts: asking again, and an update the tracker refuses *)

(** X8: when the plan generated from the conversation still asks for
    clarification, the comment handler issues the new comment and nothing
    after it: no issue update, so the awaiting-info marker is left as it is,
    no subtask and no reaction.  The outcome is that of the comment call. *)
Theorem handleComment_asks_again data env s issue plan body s2 :
  ¬ contains BOT_MARKER (comment_body data) →
  linear_available env s →
  issue_query w (calls s ++ [IssueQuery (comment_issue data)])
    = GqlData (Some issue) →
  awaiting_info env issue →
  requestRetriagePlan (comment_issue data) issue env
    (logged (IssueQuery (comment_issue data)) (with_linear s)) = (Ok plan, s2) →
  needsClarification plan = true →
  clarificationComment plan = Some body →
  nonempty body = true →
  linear_available env s2 →
  handleComment data env s
  = (mutation_result (FailedToCreateComment (comment_issue data))
       (mutation w (calls s2 ++ [CommentCreate (comment_issue data) body])),
     logged (CommentCreate (comment_issue data) body) (with_linear s2)).
Proof.
  intros Hbot Hcl Hq Haw Hplan Hnc Hcc Hne Hcl2.
  rewrite (handleComment_plan _ _ _ _ _ _ _ _ _ _ Hbot Hcl Hq Haw Hplan).
  unfold executeRetriagePlan.
  assert (asksClarification plan = true) as ->
    by (apply asksClarification_true; eauto).
  rewrite Hcc. change (default EmptyString (Some body)) with body.
  by apply createComment_run.
Qed.

(** X9: on the completion path of the new-issue handler, an issue update
    that the tracker rejects, or answers without success, ends the event:
    the handler throws and the update is the last call in the log, so no
    subtask is created, nobody is subscribed and no reaction is posted. *)
Theorem handleNewIssue_update_refused data env plan s s0 s1 valid :
  requestNewIssuePlan data env s = (Ok plan, s0) →
  asksClarification plan = false →
  validateLabelIds w env (default [] (labelIds plan)) s0 = (Ok valid, s1) →
  linear_available env s1 →
  mutation w
    (calls s1 ++ [IssueUpdate (issue_id data) (newIssueUpdate plan valid)])
    ≠ GqlData true →
  (∃ e, (handleNewIssue data env s).1 = Throw e)
  ∧ calls (handleNewIssue data env s).2
    = calls s1 ++ [IssueUpdate (issue_id data) (newIssueUpdate plan valid)].
Proof.
  intros Hplan Hask Hvalid Hcl Hno.
  remember (handleNewIssue data env s) as r eqn:Hr.
  rewrite (handleNewIssue_plan _ _ _ _ _ _ _ _ _ Hplan) in Hr.
  unfold executeNewIssuePlan in Hr. rewrite Hask in Hr.
  unfold bind at 1 in Hr. rewrite Hvalid in Hr.
  unfold bind at 1 in Hr. rewrite (updateIssue_run _ _ _ _ _ Hcl) in Hr.
  destruct (mutation w _) as [|[]]; [|done|]; subst r; cbn; eauto.
Qed.

(** ** llm.ts: what the schema lets through *)

Lemma optional_string_inv o r :
  Zod.optional Zod.string_ o = Some r → o = JStr <$> r.
Proof.
  destruct o as [[]|]; cbn; try discriminate; by intros [= <-].
Qed.

Lemma optional_number_inv o r :
  Zod.optional Zod.number o = Some r → o = JNum <$> r.
Proof.
  destruct o as [[]|]; cbn; try discriminate; by intros [= <-].
Qed.

Lemma mapM_string_inv js xs :
  mapM Zod.string_ js = Some xs → js = JStr <$> xs.
Proof.
  rewrite mapM_Some. induction 1 as [|j x js xs Hj _ IH]; [done|].
  destruct j; try discriminate. injection Hj as ->. cbn. by rewrite IH.
Qed.

Lemma optional_strings_inv o r :
  Zod.optional (Zod.array Zod.string_) o = Some r → o = string_array <$> r.
Proof.
  destruct o as [j|]; cbn; [|by intros [= <-]].
  destruct j as [| | | |js|]; cbn; try discriminate.
  destruct (mapM Zod.string_ js) as [xs|] eqn:E; cbn; [|discriminate].
  intros [= <-]. cbn. unfold string_array. by rewrite (mapM_string_inv _ _ E).
Qed.

(** X10: the schema neither coerces nor fills in.  A value it accepts is an
    object with a boolean [needsClarification], and the plan it returns
    carries that boolean and, property by property, exactly what the object
    holds: a string, a number or an array of strings where the property is
    present, nothing where it is missing. *)
Theorem schema_decodes_faithfully j plan :
  TriagePlanSchema_parse j = Some plan →
  ∃ fs,
    j = JObj fs
    ∧ field "needsClarification" fs = Some (JBool (needsClarification plan))
    ∧ field "clarificationComment" fs = JStr <$> clarificationComment plan
    ∧ field "teamId" fs = JStr <$> teamId plan
    ∧ field "assigneeId" fs = JStr <$> assigneeId plan
    ∧ field "estimate" fs = JNum <$> estimate plan
    ∧ field "labelIds" fs = string_array <$> labelIds plan
    ∧ field "subtasks" fs = string_array <$> subtasks plan.
Proof.
  destruct j as [| | | | |fs]; try discriminate. intros H. exists fs.
  unfold TriagePlanSchema_parse in H.
  destruct (Zod.optional Zod.rewrite_object _); [|done].
  destruct (Zod.optional Zod.priority_enum _); [|done].
  destruct (Zod.optional Zod.string_ (field "teamId" fs)) eqn:Etm; [|done].
  destruct (Zod.optional (Zod.array Zod.string_) (field "labelIds" fs))
    eqn:Els; [|done].
  destruct (Zod.optional Zod.number _) eqn:Ees; [|done].
  destruct (Zod.optional Zod.string_ (field "assigneeId" fs)) eqn:Eas; [|done].
  destruct (Zod.optional (Zod.array Zod.string_) (field "subtasks" fs))
    eqn:Esub; [|done].
  cbn in H.
  destruct (field "needsClarification" fs) as [[| b | | | |]|] eqn:Enc;
    try discriminate.
  cbn in H.
  destruct (Zod.optional Zod.string_ (field "clarificationComment" fs))
    eqn:Ecc; [|done].
  injection H as <-. cbn.
  split; [done|]. split; [done|].
  split; [by apply optional_string_inv|].
  split; [by apply optional_string_inv|].
  split; [by apply optional_string_inv|].
  split; [by apply optional_number_inv|].
  split; by apply optional_strings_inv.
Qed.

(** X11: the outcome of schema validation depends on an object only through
    the nine declared properties: two objects that agree on them are both
    rejected or give the same plan, so properties the schema does not
    declare are ignored and never a reason to retry. *)
Theorem schema_reads_declared_keys_only fs fs' :
  (∀ k, k ∈ schema_keys → field k fs = field k fs') →
  TriagePlanSchema_parse (JObj fs) = TriagePlanSchema_parse (JObj fs').
Proof.
  intros H. unfold TriagePlanSchema_parse.
  rewrite (H "rewrite"), (H "priority"), (H "teamId"), (H "labelIds"),
    (H "estimate"), (H "assigneeId"), (H "subtasks"),
    (H "needsClarification"), (H "clarificationComment");
    [done|unfold schema_keys;
          repeat first [apply list_elem_of_here | apply list_elem_of_further]..].
Qed.

(** X12: a priority name is accepted and turned into the tracker's number
    exactly as the table says: the five names give 0 to 4, any other string
    is refused by the schema. *)
Theorem priority_names_and_numbers name n :
  priorityMap <$> Zod.priority_enum (JStr name) = Some n
  ↔ (name, n) ∈ priority_table.
Proof.
  unfold priority_table, Zod.priority_enum. split.
  - destruct (String.eqb_spec name "Urgent") as [->|_].
    { intros [= <-]. apply list_elem_of_further, list_elem_of_here. }
    destruct (String.eqb_spec name "High") as [->|_].
    { intros [= <-]. do 2 apply list_elem_of_further. apply list_elem_of_here. }
    destruct (String.eqb_spec name "Medium") as [->|_].
    { intros [= <-]. do 3 apply list_elem_of_further. apply list_elem_of_here. }
    destruct (String.eqb_spec name "Low") as [->|_].
    { intros [= <-]. do 4 apply list_elem_of_further. apply list_elem_of_here. }
    destruct (String.eqb_spec name "No priority") as [->|_]; [|discriminate].
    intros [= <-]. apply list_elem_of_here.
  - intros H. in_explicit_list H; injection H as -> ->; reflexivity.
Qed.

(** ** llm.ts: what [getTriagePlan] returns *)

(** X13: a plan returned by [getTriagePlan] is always the schema-validated
    content of the reply to the last call in the log, and that call is a
    model call: nothing is returned unvalidated, and no pause follows the
    successful attempt. *)
Theorem getTriagePlan_returns_validated env prompt issueContent s plan s' :
  getTriagePlan w env prompt issueContent s = (Ok plan, s') →
  valid_plan (chat w (calls s')) = Some plan
  ∧ ∃ earlier,
      calls s' = calls s ++ earlier ++ [completion env prompt issueContent].
Proof.
  destruct (openai_available_dec env s) as [Hav|[H1 H2]].
  - rewrite (getTriagePlan_unfold _ _ _ _ _ Hav). cbn zeta.
    set (c := completion env prompt issueContent).
    destruct (valid_plan _) eqn:E1.
    { intros [= <- <-]. split; [done|]. by exists []. }
    clear E1. destruct (valid_plan _) eqn:E2.
    { intros [= <- <-]. split; [done|].
      exists [c; Delay (RETRY_DELAY_MS * 1)]. cbn. by rewrite <- !app_assoc. }
    clear E2. destruct (valid_plan _) eqn:E3; [|discriminate].
    intros [= <- <-]. split; [done|].
    exists [c; Delay (RETRY_DELAY_MS * 1); c; Delay (RETRY_DELAY_MS * 2)].
    cbn. by rewrite <- !app_assoc.
  - rewrite (getTriagePlan_unavailable _ _ _ _ _ H1 H2). discriminate.
Qed.

(** X14: with no model client yet and no API key bound, a new issue ends
    after the two reads of the store: the handler throws [OpenAIKeyNotSet],
    the missing key is not retried, and the model is never called. *)
Theorem handleNewIssue_without_model_key data env s :
  openai s = false → truthy (OPENAI_API_KEY env) = false →
  kb_stored w →
  (handleNewIssue data env s).1 = Throw OpenAIKeyNotSet
  ∧ calls (handleNewIssue data env s).2
    = calls s ++ [KvGet KB_KEY; KvGet LABELS_KEY].
Proof.
  intros H1 H2 [Ht Hl].
  remember (handleNewIssue data env s) as r eqn:Hr.
  unfold handleNewIssue, requestNewIssuePlan, getTeamKnowledgeBase,
    getLabelKnowledgeBase in Hr.
  unfold bind at 1 2 3, emit in Hr.
  destruct (Ht (calls s ++ [KvGet KB_KEY])) as [teamKb Et].
  rewrite Et in Hr. cbn [kv_parse ret] in Hr.
  unfold bind at 1 2 in Hr.
  destruct (Hl (calls (logged (KvGet KB_KEY) s) ++ [KvGet LABELS_KEY]))
    as [labelKb El].
  rewrite El in Hr. cbn [kv_parse ret] in Hr.
  unfold bind in Hr. rewrite getTriagePlan_unavailable in Hr by done.
  subst r. cbn. by rewrite <- app_assoc.
Qed.

(** ** linear.ts: the tracker client *)

(** X15: with no tracker client yet and no API key bound, every tracker
    operation throws [LinearKeyNotSet] and sends nothing, and so does the
    comment handler on a comment that is not the bot's own. *)
Theorem tracker_needs_a_key env s :
  linearClient s = false → truthy (LINEAR_API_KEY env) = false →
  (∀ id, getIssue w env id s = (Throw LinearKeyNotSet, s))
  ∧ (∀ id, getComments w env id s = (Throw LinearKeyNotSet, s))
  ∧ (∀ id payload, updateIssue w env id payload s = (Throw LinearKeyNotSet, s))
  ∧ (∀ id body, createComment w env id body s = (Throw LinearKeyNotSet, s))
  ∧ (∀ id user, subscribeToIssue w env id user s = (Throw LinearKeyNotSet, s))
  ∧ (∀ id emoji, addReaction w env id emoji s = (Throw LinearKeyNotSet, s))
  ∧ (∀ data, includes BOT_MARKER (comment_body data) = false →
       handleComment data env s = (Throw LinearKeyNotSet, s)).
Proof.
  intros H1 H2.
  assert (∀ id, getIssue w env id s = (Throw LinearKeyNotSet, s)) as Hget.
  { intros id. unfold getIssue, bind.
    by rewrite (makeGraphQLRequest_unavailable _ _ _ _ H1 H2). }
  repeat split; try done; intros.
  - unfold getComments, bind.
    by rewrite (makeGraphQLRequest_unavailable _ _ _ _ H1 H2).
  - unfold updateIssue, bind, getLinearClient. by rewrite H1, H2.
  - by apply createComment_unavailable.
  - unfold subscribeToIssue, bind.
    by rewrite (makeGraphQLRequest_unavailable _ _ _ _ H1 H2).
  - unfold addReaction, bind.
    by rewrite (makeGraphQLRequest_unavailable _ _ _ _ H1 H2).
  - unfold handleComment. rewrite H. unfold bind. by rewrite Hget.
Qed.

(** X16: the clients are built once and kept.  After a request through
    [makeGraphQLRequest] that found or built the tracker client, and after a
    [getTriagePlan] that found or built the model client, the client is
    there for any later event, whatever keys its bindings hold. *)
Theorem clients_are_kept env env' s :
  (linear_available env s →
   ∀ A c (reply : list Call → Gql A),
     linear_available env' (makeGraphQLRequest env c reply s).2)
  ∧ (openai_available env s →
     ∀ prompt issueContent,
       openai_available env' (getTriagePlan w env prompt issueContent s).2).
Proof.
  split.
  - intros Hcl A c reply. rewrite (makeGraphQLRequest_run _ _ _ _ Hcl).
    by left.
  - intros Hav prompt issueContent.
    rewrite (getTriagePlan_unfold _ _ _ _ _ Hav). cbn zeta.
    repeat destruct (valid_plan _); by left.
Qed.

(** ** linear.ts: subtask creation *)

Lemma created_issues_length parentId subtasks log :
  (length (created_issues w parentId subtasks log) ≤ length subtasks)%nat.
Proof.
  revert log. induction subtasks as [|t ts IH]; intros log; [done|].
  cbn [created_issues length].
  specialize (IH (log ++ [IssueCreate parentId t])).
  destruct (issue_create w _) as [|[[[] []]|]]; cbn [length]; lia.
Qed.

Lemma created_issues_accepted parentId subtasks log issue :
  issue ∈ created_issues w parentId subtasks log →
  ∃ log',
    issue_create w log'
    = GqlData (Some {| create_success := true; create_issue := Some issue |}).
Proof.
  revert log. induction subtasks as [|t ts IH]; intros log;
    [by intros ?%elem_of_nil|].
  cbn [created_issues].
  destruct (issue_create w (log ++ [IssueCreate parentId t]))
    as [|[[[] [i|]]|]] eqn:E; try apply IH.
  intros [->|H]%elem_of_cons; [eauto|by eapply IH].
Qed.

Lemma all_settled_unavailable env parentId subtasks s :
  linearClient s = false → truthy (LINEAR_API_KEY env) = false →
  all_settled
    (λ subtask,
       makeGraphQLRequest env (IssueCreate parentId subtask) (issue_create w))
    subtasks s
  = (Ok ((λ _, None) <$> subtasks), s).
Proof.
  intros H1 H2. induction subtasks as [|t ts IH]; [done|].
  cbn [all_settled]. unfold bind at 1, settle.
  rewrite (makeGraphQLRequest_unavailable _ _ _ _ H1 H2).
  unfold bind. by rewrite IH.
Qed.

(** X17: [createMultipleSubtasks] never throws, and what it returns are
    issues the tracker created: each is the issue of a reply that reports
    success, and there are at most as many as subtasks.  With a client it
    sends one creation per subtask, in order, whatever the tracker answers
    to each, and returns, in that order, the issue of every reply that
    reports success and carries one; a rejected request, a reply without
    success and a successful reply without an issue contribute nothing.
    Without a client and without a key to build one it sends nothing and
    returns the empty list. *)
Theorem createMultipleSubtasks_settles env parentId subtasks s :
  ∃ issues,
    (createMultipleSubtasks w env parentId subtasks s).1 = Ok issues
    ∧ (length issues ≤ length subtasks)%nat
    ∧ (∀ issue, issue ∈ issues →
         ∃ log, issue_create w log
                = GqlData (Some {| create_success := true;
                                   create_issue := Some issue |}))
    ∧ (linear_available env s →
       calls (createMultipleSubtasks w env parentId subtasks s).2
       = calls s ++ (IssueCreate parentId <$> subtasks)
       ∧ issues = created_issues w parentId subtasks (calls s))
    ∧ (linearClient s = false → truthy (LINEAR_API_KEY env) = false →
       issues = [] ∧ (createMultipleSubtasks w env parentId subtasks s).2 = s).
Proof.
  destruct (linear_available_dec env s) as [Hcl|[H1 H2]].
  - destruct (createMultipleSubtasks_run w env parentId subtasks s Hcl)
      as (s' & E & Hc & _).
    rewrite E. cbn [fst snd]. eexists. split; [reflexivity|].
    split; [apply created_issues_length|].
    split; [intros issue; apply created_issues_accepted|].
    split; [done|].
    intros Hno. destruct Hcl as [Hcl|Hcl]; congruence.
  - unfold createMultipleSubtasks, bind.
    rewrite (all_settled_unavailable _ _ _ _ H1 H2). cbn [ret fst snd].
    assert (omap created ((λ _, None) <$> subtasks) = []) as ->.
    { clear. induction subtasks as [|t ts IH]; [done|]. cbn. by rewrite IH. }
    exists []. split; [done|]. split; [cbn; lia|].
    split; [by intros issue ?%elem_of_nil|].
    split; [|done].
    intros [Hcl|Hcl]; congruence.
Qed.

(** ** worker.ts: the entry point *)

(** X18: a request without a signature header, with an empty one, or whose
    signature does not verify is answered 401 and goes no further: no
    handler runs and nothing is sent, whatever the body holds. *)
Theorem fetch_refuses_unverified request env s :
  linear_signature request = None
  ∨ linear_signature request = Some EmptyString
  ∨ hmac_verifies request = false →
  fetch request env s
  = (Ok {| response_body := "Invalid signature"; response_status := 401 |}, s).
Proof.
  intros H. unfold fetch, verifySignature.
  destruct H as [->|[->|H]]; [done..|].
  rewrite H. by destruct (linear_signature request) as [[]|].
Qed.

(** X19: a verified request with a JSON body is always acknowledged with
    200, also when the handler it starts throws.  Only the creation of an
    issue or of a comment starts a handler, and then the log is that of the
    handler; any other event leaves everything as it was. *)
Theorem fetch_acknowledges request env s payload :
  verifySignature request (LINEAR_SIGNING_SECRET env) = true →
  json_body request = Some payload →
  (fetch request env s).1
  = Ok {| response_body := "Webhook acknowledged"; response_status := 200 |}
  ∧ (fetch request env s).2
    = match payload_data payload, payload_action payload with
      | IssueEvent data, ActionCreate => (handleNewIssue data env s).2
      | CommentEvent data, ActionCreate => (handleComment data env s).2
      | _, _ => s
      end.
Proof.
  intros Hv Hb. unfold fetch. rewrite Hv, Hb. cbn [negb].
  unfold bind at 1.
  destruct (payload_data payload) as [data|data],
    (payload_action payload); try done; unfold waitUntil, bind, settle.
  - by destruct (handleNewIssue data env s) as [[[]|e] s'].
  - by destruct (handleComment data env s) as [[[]|e] s'].
Qed.

(** ** worker.ts: the merged label list and the transcript *)

(** X20: the label list sent on re-triage is the issue's current labels
    without the awaiting-info marker, in their order, followed by the
    validated labels.  What precedes the validated labels keeps the order
    of the current labels and loses nothing but the occurrences of the
    marker: every other label stays, as often as it occurs, and an issue
    without the marker keeps its whole list.  The marker is in the list
    exactly when it is among the validated labels, and a label that is both
    on the issue and validated is sent twice: the list is not
    deduplicated. *)
Theorem finalLabelIds_shape env issue valid marker :
  AWAITING_INFO_LABEL_ID env = Some marker →
  (∃ kept,
     finalLabelIds env issue valid = kept ++ valid
     ∧ kept `sublist_of` fetched_labelIds issue
     ∧ (marker ∉ kept)
     ∧ (∀ id, id ≠ marker → id ∈ fetched_labelIds issue → id ∈ kept)
     ∧ (length kept
        + length (filter (λ id, id = marker) (fetched_labelIds issue))
        = length (fetched_labelIds issue))%nat)
  ∧ (marker ∈ finalLabelIds env issue valid ↔ marker ∈ valid)
  ∧ (∀ id, id ≠ marker → id ∈ fetched_labelIds issue → id ∈ valid →
       ¬ NoDup (finalLabelIds env issue valid))
  ∧ (marker ∉ fetched_labelIds issue →
     finalLabelIds env issue valid = fetched_labelIds issue ++ valid).
Proof.
  intros Hm. unfold finalLabelIds. rewrite Hm.
  assert (marker ∉ filter (λ id, Some id ≠ Some marker)
                     (fetched_labelIds issue)) as Hout.
  { rewrite list_elem_of_filter. by intros [? _]. }
  split; [|split; [|split]].
  - eexists. split; [reflexivity|]. split; [apply sublist_filter|].
    split; [done|]. split.
    + intros id Hne Hcur. rewrite list_elem_of_filter. split; [congruence|done].
    + clear. induction (fetched_labelIds issue) as [|x l IH]; [done|].
      rewrite !filter_cons.
      destruct (decide (Some x ≠ Some marker)) as [H1|H1],
        (decide (x = marker)) as [H2|H2]; cbn [length]; try lia.
      * by subst.
      * exfalso. apply H1. congruence.
  - rewrite elem_of_app. split; [by intros [?|?]|by right].
  - intros id Hne Hcur Hval [_ [Hdisj _]]%NoDup_app.
    apply (Hdisj id); [|done].
    rewrite list_elem_of_filter. split; [congruence|done].
  - intros Hnot. f_equal. clear Hout.
    induction (fetched_labelIds issue) as [|x l IH]; [done|].
    apply not_elem_of_cons in Hnot as [Hx Hl].
    rewrite filter_cons. destruct (decide _) as [|H1]; [by rewrite IH|].
    exfalso. apply H1. congruence.
Qed.

Lemma append_assoc (a b c : string) : (a +:+ b) +:+ c = a +:+ b +:+ c.
Proof.
  induction a as [|x a IH]; [done|].
  change (String x ((a +:+ b) +:+ c) = String x (a +:+ b +:+ c)).
  by rewrite IH.
Qed.

Lemma append_empty_r (a : string) : a +:+ EmptyString = a.
Proof.
  induction a as [|x a IH]; [done|].
  change (String x (a +:+ EmptyString) = String x a). by rewrite IH.
Qed.

(** The transcript holds the line of every comment. *)
Lemma conversationHistory_complete comments c :
  c ∈ comments →
  contains (transcript_line c) (conversationHistory comments).
Proof.
  unfold conversationHistory.
  change (λ c0 : CommentNode,
            or_else (node_user c0 ≫= user_name) "User" +:+ ": " +:+ node_body c0)
    with transcript_line.
  induction comments as [|c0 rest IH]; [by intros ?%elem_of_nil|].
  intros [->|Hin]%elem_of_cons.
  - destruct rest as [|c1 rest].
    + exists EmptyString, EmptyString. cbn. by rewrite append_empty_r.
    + by exists EmptyString,
        (nl +:+ nl +:+ join (nl +:+ nl) (transcript_line <$> c1 :: rest)).
  - destruct (IH Hin) as (pre & post & E).
    destruct rest as [|c1 rest]; [by apply elem_of_nil in Hin|].
    exists (transcript_line c0 +:+ (nl +:+ nl) +:+ pre), post.
    change (join (nl +:+ nl) (transcript_line <$> c0 :: c1 :: rest))
      with (transcript_line c0 +:+ (nl +:+ nl)
            +:+ join (nl +:+ nl) (transcript_line <$> c1 :: rest)).
    by rewrite E, !append_assoc.
Qed.

(** ** llm.ts and worker.ts: what is sent to the model *)

Lemma emits_impl {A} (P Q : Call → Prop) (m : M A) :
  (∀ c, P c → Q c) → emits P m → emits Q m.
Proof.
  intros HPQ Hm s. destruct (Hm s) as (new & E & F). exists new.
  split; [done|]. by eapply Forall_impl.
Qed.

(** X22: one failed attempt is recovered.  When the first reply carries no
    valid plan and the second does, [getTriagePlan] returns the plan of the
    second, after two model calls separated by one base delay. *)
Theorem getTriagePlan_recovers env prompt issueContent s plan :
  let c := completion env prompt issueContent in
  openai_available env s →
  valid_plan (chat w (calls s ++ [c])) = None →
  valid_plan (chat w (calls s ++ [c; Delay (RETRY_DELAY_MS * 1); c]))
    = Some plan →
  (getTriagePlan w env prompt issueContent s).1 = Ok plan
  ∧ calls (getTriagePlan w env prompt issueContent s).2
    = calls s ++ [c; Delay (RETRY_DELAY_MS * 1); c].
Proof.
  intros c Hav H1 H2. rewrite (getTriagePlan_unfold _ _ _ _ _ Hav). cbn zeta.
  cbn [calls logged with_openai]. fold c. rewrite H1.
  rewrite <- !app_assoc. cbn [app]. rewrite H2.
  split; [done|]. cbn. by rewrite <- !app_assoc.
Qed.

(** X23: every model call of the new-issue handler is the same call: to the
    configured model, or [gpt-4o-mini] when none is configured; with the
    instruction text, the [PROMPT] binding when it is set and the default
    text otherwise, followed by the two knowledge bases as just read from
    the store; about the title and the description of the issue, an absent
    description reading as empty. *)
Theorem handleNewIssue_model_calls data env s teamKb labelKb :
  kv_team_rules w (calls s ++ [KvGet KB_KEY]) = KvDoc teamKb →
  kv_labels w (calls s ++ [KvGet KB_KEY; KvGet LABELS_KEY]) = KvDoc labelKb →
  ∃ new,
    calls (handleNewIssue data env s).2 = calls s ++ new
    ∧ Forall
        (model_call_is
           (ChatCompletion
              (or_else (OPENAI_MODEL env) "gpt-4o-mini")
              (or_else (PROMPT env) SYSTEM_PROMPT +:+ nl +:+ nl
               +:+ "Team Knowledge Base:" +:+ nl +:+ stringify_team teamKb
               +:+ nl +:+ nl
               +:+ "Label Knowledge Base:" +:+ nl +:+ stringify_labels labelKb)
              ("Title: " +:+ issue_title data +:+ nl +:+ nl
               +:+ "Description: "
               +:+ or_else (issue_description data) EmptyString)))
        new.
Proof.
  intros H1 H2. set (expected := ChatCompletion _ _ _).
  set (s2 := logged (KvGet LABELS_KEY) (logged (KvGet KB_KEY) s)).
  set (rest := plan <- getTriagePlan w env
                         (promptWithKb SYSTEM_PROMPT stringify_team
                            stringify_labels env teamKb labelKb)
                         ("Title: " +:+ issue_title data +:+ nl +:+ nl
                          +:+ "Description: "
                          +:+ or_else (issue_description data) EmptyString);;
               executeNewIssuePlan w data env plan).
  assert (handleNewIssue data env s = rest s2) as ->.
  { subst rest s2.
    unfold handleNewIssue, requestNewIssuePlan, getTeamKnowledgeBase,
      getLabelKnowledgeBase, bind, emit.
    rewrite H1. cbn [kv_parse ret calls logged].
    rewrite <- app_assoc. cbn [app]. by rewrite H2. }
  assert (emits (model_call_is expected) rest) as Hrest.
  { apply emits_bind.
    - apply emits_bind; [apply emits_getOpenAIClient|]. intros _.
      by apply emits_retry_loop.
    - intros plan.
      apply (emits_impl (λ c, is_model_call c = false));
        [|apply executeNewIssuePlan_no_model_call].
      by intros []. }
  destruct (Hrest s2) as (new & E & F).
  exists ([KvGet KB_KEY; KvGet LABELS_KEY] ++ new). split.
  - rewrite E. subst s2. cbn. by rewrite <- !app_assoc.
  - apply Forall_app. split; [|done]. by repeat constructor.
Qed.

(** ** worker.ts: the conversation given to the model *)

Lemma getTriagePlan_first_call env prompt issueContent s :
  openai_available env s →
  ∃ more,
    calls (getTriagePlan w env prompt issueContent s).2
    = calls s ++ completion env prompt issueContent :: more.
Proof.
  intros Hav. rewrite (getTriagePlan_unfold w env _ _ s Hav). cbn zeta.
  repeat destruct (valid_plan _); cbn [snd calls logged with_openai];
    rewrite <- ?app_assoc; eexists; reflexivity.
Qed.

Lemma contains_append_l (needle a b : string) :
  contains needle b → contains needle (a +:+ b).
Proof.
  intros (pre & post & ->). exists (a +:+ pre), post.
  by rewrite append_assoc.
Qed.

(** X21: on re-triage the model is given the whole conversation.  Once the
    issue, the two knowledge bases and the issue's comments are read, every
    model call of the comment handler carries, as the user's text, the
    issue's title and description followed by the transcript of the
    comments the tracker returned; such a call is issued whenever a model
    client is at hand; and the text of every model call holds the line
    '<speaker>: <body>' of each of these comments, the bot's own included:
    nothing is filtered out. *)
Theorem handleComment_sends_transcript data env s issue teamKb labelKb comments :
  let issueId := comment_issue data in
  let read := calls s ++ [IssueQuery issueId] in
  let expected :=
    completion env
      (promptWithKb SYSTEM_PROMPT stringify_team stringify_labels env
         teamKb labelKb)
      (retriage_content issue comments) in
  ¬ contains BOT_MARKER (comment_body data) →
  linear_available env s →
  issue_query w read = GqlData (Some issue) →
  awaiting_info env issue →
  kv_team_rules w (read ++ [KvGet KB_KEY]) = KvDoc teamKb →
  kv_labels w (read ++ [KvGet KB_KEY; KvGet LABELS_KEY]) = KvDoc labelKb →
  comments_query w
    (read ++ [KvGet KB_KEY; KvGet LABELS_KEY; CommentsQuery issueId])
  = GqlData (Some comments) →
  ∃ new,
    calls (handleComment data env s).2 = calls s ++ new
    ∧ Forall (model_call_is expected) new
    ∧ (openai_available env s → expected ∈ new)
    ∧ (∀ model system user c,
         ChatCompletion model system user ∈ new → c ∈ comments →
         contains (transcript_line c) user).
Proof.
  intros issueId read expected Hbot Hcl Hq Haw Ht Hl Hc.
  set (s1 := logged (IssueQuery issueId) (with_linear s)).
  set (s4 := logged (CommentsQuery issueId)
               (logged (KvGet LABELS_KEY) (logged (KvGet KB_KEY) s1))).
  set (rest := plan <- getTriagePlan w env
                         (promptWithKb SYSTEM_PROMPT stringify_team
                            stringify_labels env teamKb labelKb)
                         (retriage_content issue comments);;
               executeRetriagePlan w issueId issue env plan).
  assert (handleComment data env s = rest s4) as E0.
  { unfold handleComment.
    destruct (includes BOT_MARKER (comment_body data)) eqn:E;
      [by apply includes_spec in E|].
    unfold bind at 1, getIssue, bind at 1.
    rewrite (makeGraphQLRequest_run _ _ _ _ Hcl).
    fold issueId read. rewrite Hq. cbn [ret].
    apply awaiting_info_guard in Haw. rewrite Haw.
    fold s1.
    unfold requestRetriagePlan, getTeamKnowledgeBase, getLabelKnowledgeBase.
    unfold bind at 1. unfold bind at 1. unfold bind at 1, emit at 1.
    change (calls s1) with read. rewrite Ht. cbn [kv_parse ret].
    unfold bind at 1. unfold bind at 1, emit at 1.
    change (calls (logged (KvGet KB_KEY) s1)) with (read ++ [KvGet KB_KEY]).
    rewrite <- app_assoc. cbn [app]. rewrite Hl. cbn [kv_parse ret].
    unfold bind at 1, getComments, bind at 1.
    rewrite (makeGraphQLRequest_run env _ _
               (logged (KvGet LABELS_KEY) (logged (KvGet KB_KEY) s1)));
      [|by left].
    change (calls (logged (KvGet LABELS_KEY) (logged (KvGet KB_KEY) s1)))
      with ((read ++ [KvGet KB_KEY]) ++ [KvGet LABELS_KEY]).
    rewrite <- !app_assoc. cbn [app]. rewrite Hc. cbn [ret].
    reflexivity. }
  assert (emits (model_call_is expected) rest) as Hrest.
  { apply emits_bind.
    - apply emits_bind; [apply emits_getOpenAIClient|]. intros _.
      by apply emits_retry_loop.
    - intros plan.
      apply (emits_impl (λ c, is_model_call c = false));
        [|apply executeRetriagePlan_no_model_call].
      by intros []. }
  destruct (Hrest s4) as (new & E & F).
  assert (∀ c, c ∈ comments →
               contains (transcript_line c) (retriage_content issue comments))
    as Hlines.
  { intros c Hin. unfold retriage_content.
    do 13 apply contains_append_l.
    exact (conversationHistory_complete comments c Hin). }
  exists ([IssueQuery issueId; KvGet KB_KEY; KvGet LABELS_KEY;
           CommentsQuery issueId] ++ new).
  split; [|split; [|split]].
  - rewrite E0, E. subst s4 s1. cbn. by rewrite <- !app_assoc.
  - apply Forall_app. split; [|done]. by repeat constructor.
  - intros Hav. apply elem_of_app. right.
    destruct (getTriagePlan_first_call env
                (promptWithKb SYSTEM_PROMPT stringify_team stringify_labels
                   env teamKb labelKb)
                (retriage_content issue comments) s4 Hav) as [more Em].
    fold expected in Em. unfold rest, bind in E.
    destruct (getTriagePlan w env _ _ s4) as [[plan|e] s5]; cbn [snd] in Em.
    + destruct (executeRetriagePlan_no_model_call issueId issue env plan s5)
        as (post & Ep & _).
      rewrite Ep, Em, <- app_assoc in E. apply app_inv_head in E.
      subst new. apply list_elem_of_here.
    + cbn [snd] in E. rewrite Em in E. apply app_inv_head in E.
      subst new. apply list_elem_of_here.
  - intros model system user c Hcall Hin.
    apply elem_of_app in Hcall as [Hcall|Hcall]; [in_explicit_list Hcall|].
    rewrite Forall_forall in F. specialize (F _ Hcall). cbn in F.
    injection F as -> -> ->. by apply Hlines.
Qed.

(** ** worker.ts: when nothing goes wrong *)

Lemma succeeds_ret {A} (a : A) : succeeds (ret a).
Proof. intros s. by exists a, s. Qed.

Lemma succeeds_bind {A B} (m : M A) (k : A → M B) :
  succeeds m → (∀ a, succeeds (k a)) → succeeds (bind m k).
Proof.
  intros Hm Hk s. destruct (Hm s) as (a & s1 & E). unfold bind. rewrite E.
  apply Hk.
Qed.

Lemma succeeds_kv {A} key (entry : list Call → KvEntry A) :
  (∀ log, ∃ doc, entry log = KvDoc doc) →
  succeeds (log <- emit (KvGet key);; kv_parse key (entry log)).
Proof.
  intros H s. unfold bind, emit.
  destruct (H (calls s ++ [KvGet key])) as [doc ->]. cbn. eauto.
Qed.

Lemma succeeds_getIssue env issueId :
  truthy (LINEAR_API_KEY env) = true →
  (∀ log, ∃ issue, issue_query w log = GqlData (Some issue)) →
  succeeds (getIssue w env issueId).
Proof.
  intros Hkey H s. unfold getIssue, bind.
  rewrite (makeGraphQLRequest_run env _ _ s (or_intror Hkey)).
  destruct (H (calls s ++ [IssueQuery issueId])) as [issue ->]. cbn. eauto.
Qed.

Lemma succeeds_getComments env issueId :
  truthy (LINEAR_API_KEY env) = true →
  (∀ log, ∃ ns, comments_query w log = GqlData (Some ns)) →
  succeeds (getComments w env issueId).
Proof.
  intros Hkey H s. unfold getComments, bind.
  rewrite (makeGraphQLRequest_run env _ _ s (or_intror Hkey)).
  destruct (H (calls s ++ [CommentsQuery issueId])) as [ns ->]. cbn. eauto.
Qed.

Lemma succeeds_mutation env c (failed : Error) :
  truthy (LINEAR_API_KEY env) = true →
  (∀ log, mutation w log = GqlData true) →
  succeeds (success <- makeGraphQLRequest env c (mutation w);;
            if success : bool then ret () else throw failed).
Proof.
  intros Hkey Hok s. unfold bind.
  rewrite (makeGraphQLRequest_run env c (mutation w) s (or_intror Hkey)), Hok.
  cbn. eauto.
Qed.

Lemma succeeds_updateIssue env issueId payload :
  truthy (LINEAR_API_KEY env) = true →
  (∀ log, mutation w log = GqlData true) →
  succeeds (updateIssue w env issueId payload).
Proof.
  intros Hkey Hok s.
  rewrite (updateIssue_run w env issueId payload s (or_intror Hkey)), Hok.
  cbn. eauto.
Qed.

Lemma succeeds_createRequestedSubtasks env issueId subtasks :
  truthy (LINEAR_API_KEY env) = true →
  succeeds (createRequestedSubtasks w env issueId subtasks).
Proof.
  intros Hkey s.
  destruct (createRequestedSubtasks_run w env issueId subtasks s
              (or_intror Hkey)) as (s' & E & _).
  eauto.
Qed.

Lemma succeeds_validateLabelIds env labelIds :
  (∀ log, ∃ doc, kv_labels w log = KvDoc doc) →
  (∀ log doc, kv_labels w log = KvDoc doc → usable_labels doc) →
  succeeds (validateLabelIds w env labelIds).
Proof.
  intros H Hu s. destruct (H (calls s ++ [KvGet LABELS_KEY])) as [doc E].
  rewrite (validateLabelIds_run w env labelIds s doc E).
  destruct (truthy_json (kb_nodes doc)) eqn:Ht; cbn [negb]; [|eauto].
  destruct (kb_nodes doc) as [nodes|] eqn:En; [|done].
  destruct (Hu _ _ E nodes) as [Hf|(items & -> & Hnull)];
    [by apply at_nodes_spec| |].
  - apply falsy_spec in Hf. congruence.
  - rewrite (node_ids_total items Hnull). eauto.
Qed.

Lemma succeeds_getTriagePlan env prompt issueContent :
  truthy (OPENAI_API_KEY env) = true →
  (∀ log, ∃ plan, valid_plan (chat w log) = Some plan) →
  succeeds (getTriagePlan w env prompt issueContent).
Proof.
  intros Hkey H s.
  rewrite (getTriagePlan_unfold w env prompt issueContent s (or_intror Hkey)).
  cbn zeta. destruct (H (calls (logged (completion env prompt issueContent)
                                  (with_openai s)))) as [plan ->].
  eauto.
Qed.

(** X24: when nothing goes wrong both handlers run to their end.  With both
    API keys bound, in a world that stores the knowledge bases, with a label
    document whose node list is as declared, answers every model call with
    a valid plan, knows the issue and accepts every mutation, the new-issue
    handler and the comment handler return normally from any state, for any
    event, whichever branch the plan selects. *)
Theorem handlers_complete env :
  truthy (LINEAR_API_KEY env) = true →
  truthy (OPENAI_API_KEY env) = true →
  cooperative w →
  (∀ data s, (handleNewIssue data env s).1 = Ok ())
  ∧ (∀ data s, (handleComment data env s).1 = Ok ()).
Proof.
  intros Hlin Hai ([Ht Hl] & Hu & Hchat & Hissue & Hcomments & Hok).
  assert (∀ data, succeeds (handleNewIssue data env)) as Hnew.
  { intros data. apply succeeds_bind.
    - apply succeeds_bind;
        [by apply (succeeds_kv KB_KEY (kv_team_rules w))|]. intros teamKb.
      apply succeeds_bind;
        [by apply (succeeds_kv LABELS_KEY (kv_labels w))|]. intros labelKb.
      by apply succeeds_getTriagePlan.
    - intros plan. unfold executeNewIssuePlan.
      destruct (asksClarification plan).
      + apply succeeds_bind; [by apply succeeds_mutation|]. intros _.
        destruct (AWAITING_INFO_LABEL_ID env) as [marker|];
          [|apply succeeds_ret].
        destruct (nonempty marker);
          [by apply succeeds_updateIssue|apply succeeds_ret].
      + apply succeeds_bind; [by apply succeeds_validateLabelIds|].
        intros valid.
        apply succeeds_bind; [by apply succeeds_updateIssue|]. intros _.
        apply succeeds_bind; [by apply succeeds_createRequestedSubtasks|].
        intros _.
        apply succeeds_bind; [|intros _; by apply succeeds_mutation].
        destruct (issue_creator data);
          [by apply succeeds_mutation|apply succeeds_ret]. }
  assert (∀ data, succeeds (handleComment data env)) as Hcomment.
  { intros data. unfold handleComment.
    destruct (includes BOT_MARKER (comment_body data)); [apply succeeds_ret|].
    apply succeeds_bind; [by apply succeeds_getIssue|]. intros issue.
    destruct (_ || _); [apply succeeds_ret|].
    apply succeeds_bind.
    - apply succeeds_bind;
        [by apply (succeeds_kv KB_KEY (kv_team_rules w))|]. intros teamKb.
      apply succeeds_bind;
        [by apply (succeeds_kv LABELS_KEY (kv_labels w))|]. intros labelKb.
      apply succeeds_bind; [by apply succeeds_getComments|]. intros comments.
      by apply succeeds_getTriagePlan.
    - intros plan. unfold executeRetriagePlan.
      destruct (asksClarification plan); [by apply succeeds_mutation|].
      apply succeeds_bind; [by apply succeeds_validateLabelIds|].
      intros valid.
      apply succeeds_bind; [by apply succeeds_updateIssue|]. intros _.
      apply succeeds_bind; [by apply succeeds_createRequestedSubtasks|].
      intros _. by apply succeeds_mutation. }
  split; intros data s.
  - destruct (Hnew data s) as ([] & s' & ->). done.
  - destruct (Hcomment data s) as ([] & s' & ->). done.
Qed.

End Scope.

(** ** Instances of the further theorems *)

Lemma validateLabelIds_unreadable_store_witness :
  validateLabelIds Demo.empty_store Demo.env ["label-id-bug"] Demo.boot
  = (Throw (KnowledgeBaseNotFound "labels.json"),
     logged (KvGet "labels.json") Demo.boot).
Proof.
  apply (proj1 (validateLabelIds_unreadable_store Demo.empty_store Demo.env
                  ["label-id-bug"] Demo.boot)).
  reflexivity.
Defined.

Lemma validateLabelIds_idempotent_witness :
  (validateLabelIds (Demo.world ChatEmpty []) Demo.env ["label-id-bug"]
     Demo.boot).1 = Ok ["label-id-bug"].
Proof.
  apply (validateLabelIds_idempotent (Demo.world ChatEmpty []) Demo.env
           ["label-id-bug"; "label-id-fake"] Demo.boot Demo.boot Demo.labelKb);
    reflexivity.
Defined.

Lemma handleNewIssue_knowledge_base_missing_witness :
  handleNewIssue Demo.prompt Demo.stringify_team Demo.stringify_labels
    Demo.empty_store Demo.newIssue Demo.env Demo.boot
  = (Throw (KnowledgeBaseNotFound "team_rules.json"),
     logged (KvGet "team_rules.json") Demo.boot).
Proof.
  apply (proj1 (handleNewIssue_knowledge_base_missing Demo.prompt
                  Demo.stringify_team Demo.stringify_labels Demo.empty_store
                  Demo.newIssue Demo.env Demo.boot)).
  reflexivity.
Defined.

Lemma handleComment_issue_unavailable_witness :
  handleComment Demo.prompt Demo.stringify_team Demo.stringify_labels
    Demo.refusing (Demo.comment "Any update?") Demo.env Demo.boot
  = (Throw GraphQLRequestFailed,
     logged (IssueQuery "ISS-1") (with_linear Demo.boot)).
Proof.
  apply (proj1 (handleComment_issue_unavailable Demo.prompt
                  Demo.stringify_team Demo.stringify_labels Demo.refusing
                  (Demo.comment "Any update?") Demo.env Demo.boot
                  eq_refl (or_intror eq_refl))).
  reflexivity.
Defined.

Lemma handleComment_asks_again_witness :
  Demo.onComment Demo.clarify ["MARKER"] "It is the login page" Demo.boot
  = (Ok (),
     logged (CommentCreate "ISS-1" "Can you clarify X?<!-- bot -->")
       (with_linear (Demo.replanned Demo.clarify ["MARKER"]))).
Proof.
  apply (handleComment_asks_again Demo.prompt Demo.stringify_team
           Demo.stringify_labels (Demo.world (ChatJson Demo.clarify) ["MARKER"])
           (Demo.comment "It is the login page") Demo.env Demo.boot
           (Demo.issue ["MARKER"]) Demo.clarify_plan
           "Can you clarify X?<!-- bot -->"
           (Demo.replanned Demo.clarify ["MARKER"])).
  - intros H%includes_spec. vm_compute in H. discriminate.
  - right. reflexivity.
  - reflexivity.
  - exists "MARKER". repeat split. apply list_elem_of_here.
  - vm_compute. reflexivity.
  - reflexivity.
  - reflexivity.
  - reflexivity.
  - left. reflexivity.
Defined.

Lemma handleNewIssue_update_refused_witness :
  ∃ e,
    (handleNewIssue Demo.prompt Demo.stringify_team Demo.stringify_labels
       Demo.refusing Demo.newIssue Demo.env Demo.boot).1 = Throw e.
Proof.
  refine (proj1 (handleNewIssue_update_refused Demo.prompt Demo.stringify_team
                   Demo.stringify_labels Demo.refusing Demo.newIssue Demo.env
                   Demo.complete_plan Demo.boot
                   (requestNewIssuePlan Demo.prompt Demo.stringify_team
                      Demo.stringify_labels Demo.refusing Demo.newIssue
                      Demo.env Demo.boot).2
                   (validateLabelIds Demo.refusing Demo.env
                      ["label-id-bug"; "label-id-fake"]
                      (requestNewIssuePlan Demo.prompt Demo.stringify_team
                         Demo.stringify_labels Demo.refusing Demo.newIssue
                         Demo.env Demo.boot).2).2
                   ["label-id-bug"] _ _ _ _ _)).
  - vm_compute. reflexivity.
  - reflexivity.
  - vm_compute. reflexivity.
  - right. reflexivity.
  - discriminate.
Defined.

Lemma schema_decodes_faithfully_witness :
  ∃ fs, Demo.complete = JObj fs
        ∧ field "needsClarification" fs = Some (JBool false)
        ∧ field "teamId" fs = Some (JStr "team-id-1").
Proof.
  destruct (schema_decodes_faithfully Demo.complete Demo.complete_plan)
    as (fs & H1 & H2 & _ & H4 & _).
  - reflexivity.
  - exists fs. auto.
Defined.

Lemma schema_reads_declared_keys_only_witness :
  TriagePlanSchema_parse
    (JObj [("confidence", JNum (9 # 10)); ("needsClarification", JBool false)])
  = TriagePlanSchema_parse (JObj [("needsClarification", JBool false)]).
Proof.
  apply schema_reads_declared_keys_only.
  intros k Hk. unfold schema_keys in Hk.
  in_explicit_list Hk; by subst.
Defined.

Lemma getTriagePlan_returns_validated_witness :
  valid_plan
    (chat (Demo.world (ChatJson Demo.clarify) [])
       [ChatCompletion "gpt-4o-mini" "system" "issue"])
  = Some Demo.clarify_plan.
Proof.
  refine (proj1 (getTriagePlan_returns_validated
                   (Demo.world (ChatJson Demo.clarify) []) Demo.env
                   "system" "issue" Demo.boot Demo.clarify_plan
                   {| openai := true; linearClient := false;
                      calls := [ChatCompletion "gpt-4o-mini" "system" "issue"] |}
                   _)).
  reflexivity.
Defined.

Lemma handleNewIssue_without_model_key_witness :
  (handleNewIssue Demo.prompt Demo.stringify_team Demo.stringify_labels
     (Demo.world (ChatJson Demo.complete) []) Demo.newIssue Demo.no_keys
     Demo.boot).1 = Throw OpenAIKeyNotSet.
Proof.
  refine (proj1 (handleNewIssue_without_model_key Demo.prompt
                   Demo.stringify_team Demo.stringify_labels
                   (Demo.world (ChatJson Demo.complete) []) Demo.newIssue
                   Demo.no_keys Demo.boot eq_refl eq_refl _)).
  split; intros log; eexists; reflexivity.
Defined.

Lemma tracker_needs_a_key_witness :
  updateIssue (Demo.world ChatEmpty []) Demo.no_keys "ISS-1"
    (labels_only ["MARKER"]) Demo.boot
  = (Throw LinearKeyNotSet, Demo.boot).
Proof.
  apply (proj1 (proj2 (proj2 (tracker_needs_a_key Demo.prompt
           Demo.stringify_team Demo.stringify_labels (Demo.world ChatEmpty [])
           Demo.no_keys Demo.boot eq_refl eq_refl)))).
Defined.

Lemma clients_are_kept_witness :
  linear_available Demo.no_keys
    (makeGraphQLRequest Demo.env (IssueQuery "ISS-1")
       (issue_query (Demo.world ChatEmpty [])) Demo.boot).2.
Proof.
  apply (proj1 (clients_are_kept (Demo.world ChatEmpty []) Demo.env
                  Demo.no_keys Demo.boot)).
  right. reflexivity.
Defined.

Lemma createMultipleSubtasks_settles_witness :
  ∃ issues,
    (createMultipleSubtasks (Demo.world ChatEmpty []) Demo.env "ISS-1"
       Demo.two_subtasks Demo.boot).1 = Ok issues
    ∧ issues = [ {| created_id := "SUB-1"; created_title := "Reproduce" |};
                 {| created_id := "SUB-1"; created_title := "Fix" |} ].
Proof.
  destruct (createMultipleSubtasks_settles (Demo.world ChatEmpty []) Demo.env
              "ISS-1" Demo.two_subtasks Demo.boot)
    as (issues & H1 & _ & _ & H4 & _).
  exists issues. split; [exact H1|].
  destruct H4 as [_ ->]; [right|]; reflexivity.
Defined.

(** A creation reported successful without its issue is not among the
    issues returned, though it was sent and accepted. *)
Lemma createMultipleSubtasks_success_without_issue :
  createMultipleSubtasks Demo.silent_creation Demo.env "ISS-1"
    Demo.two_subtasks Demo.boot
  = (Ok [],
     {| openai := false; linearClient := true;
        calls := IssueCreate "ISS-1" <$> Demo.two_subtasks |}).
Proof. vm_compute. reflexivity. Qed.

Lemma fetch_refuses_unverified_witness :
  fetch Demo.prompt Demo.stringify_team Demo.stringify_labels
    (Demo.world ChatEmpty []) Demo.unsigned Demo.env Demo.boot
  = (Ok {| response_body := "Invalid signature"; response_status := 401 |},
     Demo.boot).
Proof.
  apply fetch_refuses_unverified. left. reflexivity.
Defined.

Lemma fetch_acknowledges_witness :
  (fetch Demo.prompt Demo.stringify_team Demo.stringify_labels
     (Demo.world ChatEmpty []) Demo.signed Demo.env Demo.boot).1
  = Ok {| response_body := "Webhook acknowledged"; response_status := 200 |}.
Proof.
  refine (proj1 (fetch_acknowledges Demo.prompt Demo.stringify_team
                   Demo.stringify_labels (Demo.world ChatEmpty [])
                   Demo.signed Demo.env Demo.boot Demo.issue_updated _ _));
    reflexivity.
Defined.

Lemma finalLabelIds_shape_witness :
  "A" ∈ finalLabelIds Demo.env (Demo.issue ["A"; "MARKER"]) ["B"]
  ∧ ("MARKER" ∈ finalLabelIds Demo.env (Demo.issue ["A"; "MARKER"]) ["B"]
     ↔ "MARKER" ∈ ["B"]).
Proof.
  destruct (finalLabelIds_shape Demo.env (Demo.issue ["A"; "MARKER"]) ["B"]
              "MARKER" eq_refl)
    as ((kept & E & _ & _ & Hkept & _) & Hmarker & _).
  split; [|exact Hmarker].
  rewrite E. apply elem_of_app. left. apply Hkept.
  - discriminate.
  - apply list_elem_of_here.
Defined.

Lemma handleComment_sends_transcript_witness :
  ∃ new,
    calls (handleComment Demo.prompt Demo.stringify_team Demo.stringify_labels
             Demo.conversing (Demo.comment "It is the login page") Demo.env
             Demo.boot).2
    = calls Demo.boot ++ new
    ∧ completion Demo.env
        (promptWithKb Demo.prompt Demo.stringify_team Demo.stringify_labels
           Demo.env ∅ Demo.labelKb)
        (retriage_content (Demo.issue ["MARKER"]) Demo.thread) ∈ new.
Proof.
  destruct (handleComment_sends_transcript Demo.prompt Demo.stringify_team
              Demo.stringify_labels Demo.conversing
              (Demo.comment "It is the login page") Demo.env Demo.boot
              (Demo.issue ["MARKER"]) ∅ Demo.labelKb Demo.thread)
    as (new & E & _ & Hin & _).
  - intros H%includes_spec. vm_compute in H. discriminate.
  - right. reflexivity.
  - reflexivity.
  - exists "MARKER". repeat split. apply list_elem_of_here.
  - reflexivity.
  - reflexivity.
  - reflexivity.
  - exists new. split; [exact E|]. apply Hin. right. reflexivity.
Defined.

Lemma getTriagePlan_recovers_witness :
  (getTriagePlan Demo.flaky Demo.env "system" "issue" Demo.boot).1
  = Ok Demo.clarify_plan.
Proof.
  refine (proj1 (getTriagePlan_recovers Demo.flaky Demo.env "system" "issue"
                   Demo.boot Demo.clarify_plan _ _ _)).
  - right. reflexivity.
  - reflexivity.
  - reflexivity.
Defined.

Lemma handleNewIssue_model_calls_witness :
  ∃ new,
    calls (Demo.onNewIssue Demo.complete Demo.boot).2 = calls Demo.boot ++ new
    ∧ Forall
        (model_call_is
           (completion Demo.env
              (promptWithKb Demo.prompt Demo.stringify_team
                 Demo.stringify_labels Demo.env ∅ Demo.labelKb)
              ("Title: Fix a UI bug on the login page" +:+ nl +:+ nl
               +:+ "Description: ")))
        new.
Proof.
  exact (handleNewIssue_model_calls Demo.prompt Demo.stringify_team
           Demo.stringify_labels (Demo.world (ChatJson Demo.complete) [])
           Demo.newIssue Demo.env Demo.boot ∅ Demo.labelKb eq_refl eq_refl).
Defined.

Lemma handlers_complete_witness :
  (Demo.onNewIssue Demo.complete Demo.boot).1 = Ok ().
Proof.
  refine (proj1 (handlers_complete Demo.prompt Demo.stringify_team
                   Demo.stringify_labels (Demo.world (ChatJson Demo.complete) [])
                   Demo.env eq_refl eq_refl _) Demo.newIssue Demo.boot).
  split; [split; intros log; eexists; reflexivity|].
  split.
  { intros log doc H nodes Hat%at_nodes_spec. injection H as <-.
    injection Hat as <-. right. eexists. split; [reflexivity|].
    intros Hin. in_explicit_list Hin. }
  repeat split; intros log; try (eexists; reflexivity); reflexivity.
Defined.

(** The label document matters to that: with [Demo.keyed_labels] stored and
    the world otherwise as before, the new-issue handler throws while it
    validates the plan's labels, and nothing is written to the tracker. *)
Lemma handleNewIssue_unusable_labels :
  (handleNewIssue Demo.prompt Demo.stringify_team Demo.stringify_labels
     Demo.keyed_store Demo.newIssue Demo.env Demo.boot).1 = Throw TypeError
  ∧ mutations
      (calls (handleNewIssue Demo.prompt Demo.stringify_team
                Demo.stringify_labels Demo.keyed_store Demo.newIssue Demo.env
                Demo.boot).2) = [].
Proof. split; vm_compute; reflexivity. Qed.
